(** * OCHRE: water tank with a phase-change-material node

    A shallow embedding of [ochre/Models/Water-PCM.py]: the class
    [TankWithPCM], which extends the stratified water tank model with one
    PCM node, and the properties of its four methods.

    Numbers.  Python floats and numpy float64 entries are idealised as
    rationals ([Q], compared with [==]): every operation of the source is
    the exact field operation, so rounding is out of the picture.  A
    division whose float result would be [inf] or [nan] has no rational
    counterpart; the embedding stops such a run with the outcome
    [Raise NonFinite] (numpy itself only warns and goes on).  What is
    proved of the methods over [Q] is what they compute and what
    rounding cannot undo; where rounding decides, the arithmetic of the
    source is run again in binary64 (module [Binary64]).

    Objects.  The attributes that the base class sets are the record
    [WaterModel]; the PCM layer's own attributes sit next to it in
    [TankWithPCM].  A method is a function from the object to an outcome
    and the object as the method left it: a Python exception keeps every
    assignment made before it was raised.

    Base class.  [StratifiedWaterModel] is not part of this file; its
    methods are the fields of the class [BaseModel], and the method that a
    subclass has to supply is the field of [Subclass]. *)

From Stdlib Require Import QArith Qminmax Lqa ZArith PrimFloat.
From stdpp Require Import gmap strings list fin_maps pretty.

Open Scope Q_scope.

#[local] Set Warnings "-inexact-float".

(** ** Constants of the module *)

Definition water_density : Q := 1000.
Definition water_density_liters : Q := 1.
Definition water_cp : Q := 4.183.
Definition water_conductivity : Q := 0.6406.
Definition water_c : Q := water_cp * water_density_liters * 1000.

(** The two property tables have the same five keys. *)
Record PhaseProperties := {
  pcm_density : Q;
  pcm_density_liters : Q;
  pcm_cp : Q;
  pcm_conductivity : Q;
  pcm_c : Q
}.

Definition solid : PhaseProperties := {|
  pcm_density := 904;
  pcm_density_liters := 0.904;
  pcm_cp := 1.9;
  pcm_conductivity := 0.28;
  pcm_c := 1717.6
|}.

Definition liquid : PhaseProperties := {|
  pcm_density := 829;
  pcm_density_liters := 0.829;
  pcm_cp := 2.2;
  pcm_conductivity := 0.16;
  pcm_c := 1823.8
|}.

Definition pcm_transition : Q := 53.

(** ** Outcomes and object state *)

Inductive exn :=
| NotImplementedError
| KeyError (key : string)
| IndexError
| OverflowError
| ValueError
| NonFinite.

Inductive outcome (A : Type) :=
| Ok (a : A)
| Raise (e : exn).
Arguments Ok {A} a.
Arguments Raise {A} e.

(** What a result mapping can hold: a float, an array, or [None]. *)
Inductive value :=
| VFloat (x : Q)
| VArray (xs : list Q)
| VNone.

Record WaterModel := {
  volume : Q;
  vol_fractions : list Q;
  state_names : list string;
  input_names : list string;
  n_nodes : nat;
  states : list Q;
  current_schedule : gmap string Q;
  inputs_init : list Q;
  h_injections : value;
  verbosity : Z
}.

Record TankWithPCM := {
  model : WaterModel;
  pcm_water_node : Z;
  pcm_vol_fraction : Q;
  t_pcm_idx : nat;
  h_pcm_idx : nat;
  pcm_heat_to_water : option Q
}.

Definition set_volume (v : Q) (w : WaterModel) : WaterModel :=
  {| volume := v; vol_fractions := vol_fractions w;
     state_names := state_names w; input_names := input_names w;
     n_nodes := n_nodes w; states := states w;
     current_schedule := current_schedule w; inputs_init := inputs_init w;
     h_injections := h_injections w; verbosity := verbosity w |}.

Definition set_vol_fractions (fs : list Q) (w : WaterModel) : WaterModel :=
  {| volume := volume w; vol_fractions := fs;
     state_names := state_names w; input_names := input_names w;
     n_nodes := n_nodes w; states := states w;
     current_schedule := current_schedule w; inputs_init := inputs_init w;
     h_injections := h_injections w; verbosity := verbosity w |}.

Definition set_inputs_init (xs : list Q) (w : WaterModel) : WaterModel :=
  {| volume := volume w; vol_fractions := vol_fractions w;
     state_names := state_names w; input_names := input_names w;
     n_nodes := n_nodes w; states := states w;
     current_schedule := current_schedule w; inputs_init := xs;
     h_injections := h_injections w; verbosity := verbosity w |}.

Definition with_model (f : WaterModel -> WaterModel) (t : TankWithPCM)
  : TankWithPCM :=
  {| model := f (model t); pcm_water_node := pcm_water_node t;
     pcm_vol_fraction := pcm_vol_fraction t; t_pcm_idx := t_pcm_idx t;
     h_pcm_idx := h_pcm_idx t; pcm_heat_to_water := pcm_heat_to_water t |}.

Definition set_pcm_heat_to_water (q : option Q) (t : TankWithPCM)
  : TankWithPCM :=
  {| model := model t; pcm_water_node := pcm_water_node t;
     pcm_vol_fraction := pcm_vol_fraction t; t_pcm_idx := t_pcm_idx t;
     h_pcm_idx := h_pcm_idx t; pcm_heat_to_water := q |}.

(** ** Methods as state-and-exception computations *)

Definition M (A : Type) : Type := TankWithPCM -> outcome A * TankWithPCM.

Definition ret {A} (a : A) : M A := fun s => (Ok a, s).
Definition raise {A} (e : exn) : M A := fun s => (Raise e, s).
Definition bind {A B} (m : M A) (k : A -> M B) : M B :=
  fun s =>
    match m s with
    | (Ok a, s') => k a s'
    | (Raise e, s') => (Raise e, s')
    end.
Definition get_self : M TankWithPCM := fun s => (Ok s, s).
Definition modify (f : TankWithPCM -> TankWithPCM) : M unit :=
  fun s => (Ok tt, f s).
Definition lift {A} (e : exn) (o : option A) : M A :=
  match o with
  | Some a => ret a
  | None => raise e
  end.

Declare Scope py_scope.
Delimit Scope py_scope with py.
Notation "x <- m ;; k" := (bind m (fun x => k))
  (at level 100, m at next level, right associativity) : py_scope.
Notation "m ;;; k" := (bind m (fun _ => k))
  (at level 100, right associativity) : py_scope.

(** Unfolds the plumbing of a method, leaving the calls it makes. *)
Ltac run_method :=
  unfold bind, get_self, modify, lift, ret, raise.

(** ** Python and numpy primitives *)

(** [seq[i]] with Python's negative indices: the position that [i] names
    in a sequence of length [n], if any. *)
Definition py_index (n : nat) (i : Z) : option nat :=
  if (0 <=? i)%Z then
    (if (i <? Z.of_nat n)%Z then Some (Z.to_nat i) else None)
  else
    (if (- Z.of_nat n <=? i)%Z then Some (Z.to_nat (Z.of_nat n + i)) else None).

Definition np_getitem (a : list Q) (i : Z) : option Q :=
  n ← py_index (length a) i; a !! n.

(** [a[i] = f(a[i])], the shape of [a[i] += q], [a[i] -= q], [a[i] *= c]. *)
Definition np_update (f : Q -> Q) (a : list Q) (i : Z) : option (list Q) :=
  n ← py_index (length a) i; x ← a !! n; Some (<[n := f x]> a).

(** What numpy raises for an integer index that names no entry:
    [IndexError] when the integer fits a C long (64 bits),
    [OverflowError] when it does not. *)
Definition c_long (i : Z) : bool :=
  ((- 2 ^ 63 <=? i) && (i <? 2 ^ 63))%Z.

Definition index_error (i : Z) : exn :=
  if c_long i then IndexError else OverflowError.

(** The builtin [sum]: a left fold that starts from 0. *)
Definition py_sum (a : list Q) : Q := fold_left Qplus a 0.

(** [list.index(x)]: the first position holding [x]. *)
Fixpoint list_index (x : string) (l : list string) : option nat :=
  match l with
  | [] => None
  | y :: l' => if decide (y = x) then Some 0%nat else S <$> list_index x l'
  end.

(** [a.dot(b)] on one-dimensional arrays. *)
Fixpoint dot (a b : list Q) : Q :=
  match a, b with
  | x :: a', y :: b' => x * y + dot a' b'
  | _, _ => 0
  end.

Definition np_dot (a b : list Q) : option Q :=
  if decide (length a = length b) then Some (dot a b) else None.

(** [a.max()] and [a.min()]: no value on an empty array. *)
Definition np_max (a : list Q) : option Q :=
  match a with
  | [] => None
  | x :: a' => Some (fold_left Qmax a' x)
  end.

Definition np_min (a : list Q) : option Q :=
  match a with
  | [] => None
  | x :: a' => Some (fold_left Qmin a' x)
  end.

(** The f-strings [f"C_WH{node + 1}"] and [f"R_PCM_WH{node + 1}"]. *)
Definition c_wh_key (node : Z) : string := "C_WH" +:+ pretty (node + 1)%Z.
Definition r_pcm_wh_key (node : Z) : string :=
  "R_PCM_WH" +:+ pretty (node + 1)%Z.

(** ** The base class and the subclass hook *)

(** The methods of [StratifiedWaterModel] that [TankWithPCM] reaches
    through [super()] or inherits. *)
Class BaseModel := {
  super_load_rc_data : M (gmap string Q);
  super_update_inputs : option (gmap string Q) -> M unit;
  update_water_draw : M (list Q);
  super_generate_results : M (gmap string value)
}.

(** [self.get_pcm_heat_xfer()] is dispatched on the object's class. *)
Class Subclass := {
  self_get_pcm_heat_xfer : M Q
}.

(** ** The class [TankWithPCM] *)

(** The defaults of the constructor's two keyword arguments. *)
Definition default_pcm_water_node : Z := 5.
Definition default_pcm_vol_fraction : Q := 0.5.

(** [__init__], from the object that the base constructor has set up.
    The two [index] calls raise [ValueError] on a missing name. *)
Definition __init__ (base : WaterModel) (pcm_water_node : Z)
    (pcm_vol_fraction : Q) : outcome TankWithPCM :=
  match list_index "T_PCM" (state_names base) with
  | None => Raise ValueError
  | Some t_idx =>
    match list_index "H_PCM" (input_names base) with
    | None => Raise ValueError
    | Some h_idx =>
      Ok {| model := base;
            pcm_water_node := pcm_water_node;
            pcm_vol_fraction := pcm_vol_fraction;
            t_pcm_idx := t_idx;
            h_pcm_idx := h_idx;
            pcm_heat_to_water := None |}
    end
  end.

(** The method as [TankWithPCM] itself defines it. *)
Definition get_pcm_heat_xfer : M Q := raise NotImplementedError.

Definition TankWithPCM_own : Subclass :=
  {| self_get_pcm_heat_xfer := get_pcm_heat_xfer |}.

Section Methods.
Context {Base : BaseModel}.
Local Open Scope py_scope.

(** The source hands [self] and the keyword arguments on to the base
    method; what the base method makes of them is its own business. *)
Definition load_rc_data : M (gmap string Q) :=
  rc_params <- super_load_rc_data ;;
  (* add PCM capacitance *)
  self <- get_self ;;
  pcm_node_vol_fraction <-
    lift (index_error (pcm_water_node self))
      (np_getitem (vol_fractions (model self)) (pcm_water_node self)) ;;
  let pcm_volume :=
    volume (model self) * pcm_node_vol_fraction * pcm_vol_fraction self in
  let rc_params := <["C_PCM" := pcm_c solid * pcm_volume]> rc_params in
  (* reduce water volume and vol_fractions *)
  modify (with_model (set_volume (volume (model self) - pcm_volume))) ;;;
  scaled <-
    lift (index_error (pcm_water_node self))
      (np_update (fun x => x * (1 - pcm_vol_fraction self))
         (vol_fractions (model self)) (pcm_water_node self)) ;;
  modify (with_model (set_vol_fractions scaled)) ;;;
  let total := py_sum scaled in
  (if Qeq_bool total 0 then raise NonFinite else ret tt) ;;;
  modify (with_model (set_vol_fractions (map (fun x => x / total) scaled))) ;;;
  (* reduce water node capacitance *)
  c_host <-
    lift (KeyError (c_wh_key (pcm_water_node self)))
      (rc_params !! c_wh_key (pcm_water_node self)) ;;
  let rc_params :=
    <[c_wh_key (pcm_water_node self) :=
        c_host * (1 - pcm_vol_fraction self)]> rc_params in
  (* add water-PCM resistance *)
  let rc_params :=
    <[r_pcm_wh_key (pcm_water_node self) :=
        pcm_volume / pcm_conductivity solid]> rc_params in
  ret rc_params.

Definition generate_results : M (gmap string value) :=
  results <- super_generate_results ;;
  self <- get_self ;;
  if (6 <=? verbosity (model self))%Z then
    let water_states := take (n_nodes (model self)) (states (model self)) in
    avg <- lift ValueError (np_dot water_states (vol_fractions (model self))) ;;
    let results :=
      <["Hot Water Average Temperature (C)" := VFloat avg]> results in
    hi <- lift ValueError (np_max water_states) ;;
    let results :=
      <["Hot Water Maximum Temperature (C)" := VFloat hi]> results in
    lo <- lift ValueError (np_min water_states) ;;
    let results :=
      <["Hot Water Minimum Temperature (C)" := VFloat lo]> results in
    t_pcm <-
      lift IndexError
        (np_getitem (states (model self)) (Z.of_nat (t_pcm_idx self))) ;;
    let results :=
      <["Water Tank PCM Temperature (C)" := VFloat t_pcm]> results in
    let results :=
      <["Water Tank PCM Heat Injected (W)" := h_injections (model self)]>
        results in
    ret results
  else ret results.

Context {Sub : Subclass}.

Definition update_inputs (schedule_inputs : option (gmap string Q))
  : M unit :=
  super_update_inputs schedule_inputs ;;;
  (* zone temperature from the schedule *)
  self <- get_self ;;
  t_zone <-
    lift (KeyError "Zone Temperature (C)")
      (current_schedule (model self) !! "Zone Temperature (C)") ;;
  (* heat injections from the water draw *)
  heats_to_model <- update_water_draw ;;
  (* heat injections from the PCM *)
  q <- self_get_pcm_heat_xfer ;;
  modify (set_pcm_heat_to_water (Some q)) ;;;
  self <- get_self ;;
  heats_to_model <-
    lift IndexError
      (np_update (fun x => x + q) heats_to_model (pcm_water_node self)) ;;
  heats_to_model <-
    lift IndexError
      (np_update (fun x => x - q) heats_to_model
         (Z.of_nat (t_pcm_idx self))) ;;
  (* hand the vector to the tank model *)
  modify (with_model (set_inputs_init (t_zone :: heats_to_model))).

End Methods.

(** ** What a complete run of [load_rc_data] produces *)

(** The object after lines 62-64, from the object [t1] that the base
    method left: volume reduced, host fraction scaled, all fractions
    divided by the new sum. *)
Definition augmented (t1 : TankWithPCM) (n : nat) (f : Q) : TankWithPCM :=
  let p := pcm_vol_fraction t1 in
  let scaled := <[n := f * (1 - p)]> (vol_fractions (model t1)) in
  with_model (set_vol_fractions (map (fun x => x / py_sum scaled) scaled))
    (with_model (set_vol_fractions scaled)
       (with_model
          (set_volume (volume (model t1) - volume (model t1) * f * p)) t1)).

(** The mapping that a complete run returns. *)
Definition augmented_rc (t1 : TankWithPCM) (f c : Q) (rc : gmap string Q)
  : gmap string Q :=
  let p := pcm_vol_fraction t1 in
  let k := pcm_water_node t1 in
  let pcm_volume := volume (model t1) * f * p in
  <[r_pcm_wh_key k := pcm_volume / pcm_conductivity solid]>
    (<[c_wh_key k := c * (1 - p)]>
       (<["C_PCM"%string := pcm_c solid * pcm_volume]> rc)).

(** ** A stand-in base model, to run the methods on examples

    Ten water nodes of equal share and one PCM node; the capacitance of
    a water node is [water_c] times its volume. *)

Definition demo_fractions : list Q := replicate 10 0.1.

Definition demo_state_names : list string :=
  ["T_WH1"; "T_WH2"; "T_WH3"; "T_WH4"; "T_WH5"; "T_WH6"; "T_WH7"; "T_WH8";
   "T_WH9"; "T_WH10"; "T_PCM"]%string.

Definition demo_input_names : list string :=
  ["T_AMB"; "H_WH1"; "H_WH2"; "H_WH3"; "H_WH4"; "H_WH5"; "H_WH6"; "H_WH7";
   "H_WH8"; "H_WH9"; "H_WH10"; "H_PCM"]%string.

Definition demo_model : WaterModel := {|
  volume := 100;
  vol_fractions := demo_fractions;
  state_names := demo_state_names;
  input_names := demo_input_names;
  n_nodes := 10;
  states := [50; 50; 50; 50; 50; 52; 54; 55; 56; 57; 49];
  current_schedule := {[ "Zone Temperature (C)"%string := 20 ]};
  inputs_init := [];
  h_injections := VNone;
  verbosity := 3
|}.

Definition with_verbosity (v : Z) (w : WaterModel) : WaterModel :=
  {| volume := volume w; vol_fractions := vol_fractions w;
     state_names := state_names w; input_names := input_names w;
     n_nodes := n_nodes w; states := states w;
     current_schedule := current_schedule w; inputs_init := inputs_init w;
     h_injections := h_injections w; verbosity := v |}.

(** [C_WH1], [C_WH2], ... for the fractions [fs], numbered from [i]. *)
Fixpoint demo_capacitances (v : Q) (i : Z) (fs : list Q) : gmap string Q :=
  match fs with
  | [] => ∅
  | f :: fs' =>
      <["C_WH" +:+ pretty i := water_c * (v * f)]>
        (demo_capacitances v (i + 1) fs')
  end.

Definition demo_base : BaseModel := {|
  super_load_rc_data := fun s =>
    (Ok (demo_capacitances (volume (model s)) 1 (vol_fractions (model s))), s);
  super_update_inputs := fun _ => ret tt;
  update_water_draw := fun s =>
    (Ok (replicate (length (state_names (model s))) 0), s);
  super_generate_results := ret ∅
|}.

(** A subclass whose heat transfer is a constant 10 W. *)
Definition demo_subclass : Subclass :=
  {| self_get_pcm_heat_xfer := ret 10 |}.

Definition demo_tank (p : Q) : TankWithPCM := {|
  model := demo_model;
  pcm_water_node := 5;
  pcm_vol_fraction := p;
  t_pcm_idx := 10;
  h_pcm_idx := 11;
  pcm_heat_to_water := None
|}.



(** ** The arithmetic of the source in binary64

    The expressions of lines 58-70 and 90-91 again, on primitive floats,
    to run concrete inputs with the rounding of the source. *)

Module Binary64.

Definition pcm_volume (volume pcm_node_vol_fraction pcm_vol_fraction : float)
  : float :=
  (volume * pcm_node_vol_fraction * pcm_vol_fraction)%float.

Definition c_pcm (pcm_volume : float) : float :=
  (1717.6 * pcm_volume)%float.

Definition r_pcm_wh (pcm_volume : float) : float :=
  (pcm_volume / 0.28)%float.

(** The builtin [sum] on floats. *)
Definition py_sum (a : list float) : float :=
  fold_left PrimFloat.add a 0%float.

(** Line 62: the volume after the PCM volume is taken out. *)
Definition reduced_volume (volume pcm_node_vol_fraction pcm_vol_fraction
    : float) : float :=
  (volume - pcm_volume volume pcm_node_vol_fraction pcm_vol_fraction)%float.

(** Lines 63 and 64: the host fraction scaled, then every fraction
    divided by the new sum. *)
Definition rescaled (vol_fractions : list float) (host : nat)
    (pcm_vol_fraction : float) : option (list float) :=
  x ← vol_fractions !! host;
  let scaled := <[host := (x * (1 - pcm_vol_fraction))%float]> vol_fractions in
  Some (map (fun y => (y / py_sum scaled)%float) scaled).

(** Line 67: the host capacitance after the call. *)
Definition host_capacitance (c pcm_vol_fraction : float) : float :=
  (c * (1 - pcm_vol_fraction))%float.

(** Lines 90 and 91: the flux added at the host entry and taken away at
    the PCM entry. *)
Definition fold_flux (heats_to_model : list float) (host pcm : nat)
    (q : float) : option (list float) :=
  x ← heats_to_model !! host;
  let heats_to_model := <[host := (x + q)%float]> heats_to_model in
  y ← heats_to_model !! pcm;
  Some (<[pcm := (y - q)%float]> heats_to_model).

(** What the two coupled entries gain together in a step. *)
Definition net_gain (x y q : float) : float :=
  (((x + q) - x) + ((y - q) - y))%float.

End Binary64.

(** ** Vocabulary of the statements *)

(** Two arrays are numerically the same. *)
Definition array_eq (a b : list Q) : Prop := Forall2 Qeq a b.

(** Two optional entries of a mapping are numerically the same. *)
Definition entry_eq (a b : option Q) : Prop := option_Forall2 Qeq a b.

(** A valid configuration: [pcm_water_node] names the existing node [n],
    [pcm_vol_fraction] lies in [0, 1), and the volume fractions are
    shares of the whole tank: none negative, together 1. *)
Definition valid_config (t : TankWithPCM) (n : nat) : Prop :=
  py_index (length (vol_fractions (model t))) (pcm_water_node t) = Some n /\
  (0 <= pcm_vol_fraction t /\ pcm_vol_fraction t < 1) /\
  Forall (Qle 0) (vol_fractions (model t)) /\
  py_sum (vol_fractions (model t)) == 1.

(** Lines 57-64 of [load_rc_data] run on [t] without an exception and
    without a division by zero: the host node is entry [n], of share
    [f], and the scaled fractions have a sum to divide by. *)
Definition augmentable (t : TankWithPCM) (n : nat) (f : Q) : Prop :=
  py_index (length (vol_fractions (model t))) (pcm_water_node t) = Some n /\
  vol_fractions (model t) !! n = Some f /\
  ~ py_sum (<[n := f * (1 - pcm_vol_fraction t)]> (vol_fractions (model t)))
    == 0.

(** The five keys that [generate_results] writes. *)
Definition pcm_result_keys : gset string :=
  {[ "Hot Water Average Temperature (C)"%string;
     "Hot Water Maximum Temperature (C)"%string;
     "Hot Water Minimum Temperature (C)"%string;
     "Water Tank PCM Temperature (C)"%string;
     "Water Tank PCM Heat Injected (W)"%string ]}.

(** ** Demo objects for the error paths *)

(** The demo model with other state names, node count, schedule and
    verbosity. *)
Definition demo_model_of (names : list string) (n : nat)
    (schedule : gmap string Q) (v : Z) : WaterModel := {|
  volume := 100;
  vol_fractions := demo_fractions;
  state_names := names;
  input_names := demo_input_names;
  n_nodes := n;
  states := [50; 50; 50; 50; 50; 52; 54; 55; 56; 57; 49];
  current_schedule := schedule;
  inputs_init := [];
  h_injections := VNone;
  verbosity := v
|}.

(** A tank over [w] with the host node [node], the PCM state at [idx]
    and half of the host node turned into PCM. *)
Definition demo_tank_of (w : WaterModel) (node : Z) (idx : nat)
  : TankWithPCM := {|
  model := w;
  pcm_water_node := node;
  pcm_vol_fraction := 0.5;
  t_pcm_idx := idx;
  h_pcm_idx := 11;
  pcm_heat_to_water := None
|}.

(** * Facts about the primitives *)

Lemma Qeq_bool_false (x y : Q) : ~ x == y -> Qeq_bool x y = false.
Proof.
  intros H. destruct (Qeq_bool x y) eqn:E; [|reflexivity].
  apply Qeq_bool_eq in E. contradiction.
Qed.

Lemma c_wh_key_not_pcm (k : Z) : c_wh_key k <> "C_PCM"%string.
Proof. unfold c_wh_key. cbn. discriminate. Qed.

Lemma r_key_not_pcm (k : Z) : r_pcm_wh_key k <> "C_PCM"%string.
Proof. unfold r_pcm_wh_key. cbn. discriminate. Qed.

Lemma r_key_not_c_wh (k k' : Z) : r_pcm_wh_key k <> c_wh_key k'.
Proof. unfold r_pcm_wh_key, c_wh_key. cbn. discriminate. Qed.

Lemma py_index_lt (n : nat) (i : Z) (m : nat) :
  py_index n i = Some m -> (m < n)%nat.
Proof.
  unfold py_index. intros H.
  destruct (0 <=? i)%Z eqn:E0.
  - destruct (i <? Z.of_nat n)%Z eqn:E1; [|discriminate].
    injection H as <-. lia.
  - destruct (- Z.of_nat n <=? i)%Z eqn:E1; [|discriminate].
    injection H as <-. lia.
Qed.

Lemma py_index_of_nat (n m : nat) :
  (m < n)%nat -> py_index n (Z.of_nat m) = Some m.
Proof.
  intros H. unfold py_index.
  destruct (0 <=? Z.of_nat m)%Z eqn:E0; [|lia].
  destruct (Z.of_nat m <? Z.of_nat n)%Z eqn:E1; [|lia].
  by rewrite Nat2Z.id.
Qed.

Lemma fold_left_Qplus_acc (l : list Q) (a : Q) :
  fold_left Qplus l a == a + fold_left Qplus l 0.
Proof.
  revert a. induction l as [|x l IH]; intros a; simpl.
  - ring.
  - rewrite (IH (a + x)), (IH (0 + x)). ring.
Qed.

Lemma py_sum_cons (x : Q) (l : list Q) : py_sum (x :: l) == x + py_sum l.
Proof.
  unfold py_sum. simpl. rewrite fold_left_Qplus_acc. ring.
Qed.

Lemma py_sum_insert (l : list Q) (n : nat) (f g : Q) :
  l !! n = Some f -> py_sum (<[n := g]> l) == py_sum l - f + g.
Proof.
  revert n. induction l as [|x l IH]; intros n H.
  - discriminate.
  - destruct n as [|n]; simpl in *.
    + injection H as ->. rewrite !py_sum_cons. ring.
    + rewrite !py_sum_cons, (IH n H). ring.
Qed.

Lemma py_sum_map_div (l : list Q) (s : Q) :
  py_sum (map (fun x => x / s) l) == py_sum l / s.
Proof.
  induction l as [|x l IH]; simpl.
  - unfold py_sum. simpl. unfold Qdiv. ring.
  - rewrite !py_sum_cons, IH. unfold Qdiv. ring.
Qed.

Lemma py_sum_nonneg (l : list Q) : Forall (Qle 0) l -> 0 <= py_sum l.
Proof.
  induction 1 as [|x l Hx _ IH].
  - unfold py_sum. simpl. lra.
  - rewrite py_sum_cons. lra.
Qed.

Lemma py_sum_bounds_entry (l : list Q) (n : nat) (f : Q) :
  Forall (Qle 0) l -> l !! n = Some f -> 0 <= f <= py_sum l.
Proof.
  intros Hl. revert n. induction Hl as [|x l Hx Hl IH]; intros n H.
  - discriminate.
  - rewrite py_sum_cons. destruct n as [|n]; simpl in H.
    + injection H as ->. pose proof (py_sum_nonneg l Hl). lra.
    + specialize (IH n H). lra.
Qed.

(** * The RC parameter augmenter: [load_rc_data] *)

Section LoadRcData.
Context {Base : BaseModel}.

(** A run of [load_rc_data] in which nothing is raised. *)
Lemma load_rc_data_run (t t1 : TankWithPCM) (rc : gmap string Q)
    (n : nat) (f c : Q) :
  super_load_rc_data t = (Ok rc, t1) ->
  py_index (length (vol_fractions (model t1))) (pcm_water_node t1) = Some n ->
  vol_fractions (model t1) !! n = Some f ->
  ~ py_sum (<[n := f * (1 - pcm_vol_fraction t1)]> (vol_fractions (model t1)))
    == 0 ->
  rc !! c_wh_key (pcm_water_node t1) = Some c ->
  load_rc_data t = (Ok (augmented_rc t1 f c rc), augmented t1 n f).
Proof.
  intros Hsuper Hidx Hf Hsum Hc.
  unfold load_rc_data. run_method.
  rewrite Hsuper.
  unfold np_getitem, np_update. rewrite Hidx. simpl. rewrite Hf. simpl.
  rewrite (Qeq_bool_false _ _ Hsum).
  rewrite lookup_insert_ne by (apply not_eq_sym, c_wh_key_not_pcm).
  rewrite Hc. reflexivity.
Qed.


(** With fractions that are shares of a whole, the sum after scaling
    the host node is [1 - f * p], which is positive for [p < 1]. *)
Lemma scaled_sum (fs : list Q) (n : nat) (f p : Q) :
  fs !! n = Some f ->
  py_sum fs == 1 ->
  py_sum (<[n := f * (1 - p)]> fs) == 1 - f * p.
Proof.
  intros Hf Hs. rewrite (py_sum_insert fs n f _ Hf), Hs. ring.
Qed.

Lemma scaled_sum_pos (fs : list Q) (n : nat) (f p : Q) :
  Forall (Qle 0) fs ->
  fs !! n = Some f ->
  py_sum fs == 1 ->
  0 <= p < 1 ->
  0 < py_sum (<[n := f * (1 - p)]> fs).
Proof.
  intros Hnn Hf Hs Hp.
  rewrite (scaled_sum fs n f p Hf Hs).
  pose proof (py_sum_bounds_entry fs n f Hnn Hf) as Hb.
  rewrite Hs in Hb. nra.
Qed.

End LoadRcData.

Lemma entry_eq_refl (o : option Q) : entry_eq o o.
Proof. destruct o; constructor. reflexivity. Qed.

Lemma array_eq_map_div_one (l : list Q) (s : Q) :
  s == 1 -> array_eq (map (fun x => x / s) l) l.
Proof.
  intros Hs. induction l as [|x l IH]; simpl; constructor; [|exact IH].
  rewrite Hs. field.
Qed.

Lemma array_eq_normalize (l : list Q) (n : nat) (f g s : Q) :
  l !! n = Some f -> g == f -> s == 1 ->
  array_eq (map (fun x => x / s) (<[n := g]> l)) l.
Proof.
  intros Hf Hg Hs. revert n Hf.
  induction l as [|x l IH]; intros n Hf; [discriminate|].
  destruct n as [|n]; simpl in *.
  - injection Hf as ->. constructor.
    + rewrite Hg, Hs. field.
    + apply array_eq_map_div_one, Hs.
  - constructor; [rewrite Hs; field | exact (IH n Hf)].
Qed.

Lemma lookup_map (g : Q -> Q) (l : list Q) (n : nat) :
  map g l !! n = g <$> (l !! n).
Proof.
  revert n. induction l as [|x l IH]; intros [|n]; simpl; auto.
Qed.

Lemma Forall_nonneg_scaled (l : list Q) (n : nat) (g s : Q) :
  Forall (Qle 0) l -> 0 <= g -> 0 < s ->
  Forall (Qle 0) (map (fun x => x / s) (<[n := g]> l)).
Proof.
  intros Hl Hg Hs. apply Forall_map.
  apply (Forall_impl (Qle 0)).
  - apply Forall_insert; assumption.
  - intros x Hx. apply Qle_shift_div_l; [exact Hs | lra].
Qed.


Lemma array_eq_lookup (a b : list Q) :
  length a = length b ->
  (forall (i : nat) (x y : Q), a !! i = Some x -> b !! i = Some y -> x == y) ->
  array_eq a b.
Proof.
  intros Hlen H. apply Forall2_same_length_lookup. split; assumption.
Qed.

(** What the augmenter leaves of a valid configuration is again one, as
    long as it is not asked about [pcm_vol_fraction] itself; the host
    share becomes [f * (1 - p) / (1 - f * p)]. *)
Lemma augmented_fractions (t : TankWithPCM) (n : nat) (f : Q) :
  valid_config t n ->
  vol_fractions (model t) !! n = Some f ->
  exists f' : Q,
    vol_fractions (model (augmented t n f)) !! n = Some f' /\
    f' * (1 - f * pcm_vol_fraction t) == f * (1 - pcm_vol_fraction t) /\
    length (vol_fractions (model (augmented t n f)))
      = length (vol_fractions (model t)) /\
    Forall (Qle 0) (vol_fractions (model (augmented t n f))) /\
    py_sum (vol_fractions (model (augmented t n f))) == 1.
Proof.
  intros (Hidx & Hp & Hnn & Hsum) Hf.
  pose proof (scaled_sum _ n f (pcm_vol_fraction t) Hf Hsum) as Hs.
  pose proof (scaled_sum_pos _ n f _ Hnn Hf Hsum Hp) as Hpos.
  pose proof (py_sum_bounds_entry _ n f Hnn Hf) as Hb.
  pose proof (py_index_lt _ _ _ Hidx) as Hlt.
  unfold augmented.
  cbn [vol_fractions model with_model set_vol_fractions].
  set (p := pcm_vol_fraction t) in *.
  set (scaled := <[n := f * (1 - p)]> (vol_fractions (model t))) in *.
  exists (f * (1 - p) / py_sum scaled).
  split.
  { rewrite lookup_map. unfold scaled.
    rewrite list_lookup_insert_eq by exact Hlt. reflexivity. }
  split.
  { rewrite <- Hs. field. lra. }
  split.
  { rewrite length_map. unfold scaled. apply length_insert. }
  split.
  { unfold scaled. apply Forall_nonneg_scaled; [exact Hnn | nra | exact Hpos]. }
  rewrite py_sum_map_div. field. lra.
Qed.

Lemma augmented_valid (t : TankWithPCM) (n : nat) (f : Q) :
  valid_config t n ->
  vol_fractions (model t) !! n = Some f ->
  valid_config (augmented t n f) n.
Proof.
  intros Hv Hf.
  destruct (augmented_fractions t n f Hv Hf) as (f' & _ & _ & Hlen & Hnn & Hs).
  destruct Hv as (Hidx & Hp & _ & _).
  unfold valid_config. rewrite Hlen.
  repeat split; try assumption; apply Hp.
Qed.

Lemma valid_config_augmentable (t : TankWithPCM) (n : nat) (f : Q) :
  valid_config t n ->
  vol_fractions (model t) !! n = Some f ->
  augmentable t n f.
Proof.
  intros (Hidx & Hp & Hnn & Hsum) Hf.
  pose proof (scaled_sum_pos _ n f _ Hnn Hf Hsum Hp).
  repeat split; [assumption | assumption | lra].
Qed.


Section AugmenterClaims.
Context {Base : BaseModel}.

(** C3.  For every valid configuration, once the base method has
    returned its mapping and the host capacitance key is in it,
    [load_rc_data] completes, and the volume fractions it leaves are the
    old ones with the host entry scaled by [1 - pcm_vol_fraction] and
    every entry divided by the new sum; they sum to 1. *)
Theorem C3_fractions_renormalized (t t1 : TankWithPCM)
    (rc : gmap string Q) (n : nat) (c : Q) :
  super_load_rc_data t = (Ok rc, t1) ->
  valid_config t1 n ->
  rc !! c_wh_key (pcm_water_node t1) = Some c ->
  exists (rc' : gmap string Q) (t' : TankWithPCM) (f : Q),
    load_rc_data t = (Ok rc', t') /\
    vol_fractions (model t1) !! n = Some f /\
    (let scaled :=
       <[n := f * (1 - pcm_vol_fraction t1)]> (vol_fractions (model t1)) in
     vol_fractions (model t') = map (fun x => x / py_sum scaled) scaled) /\
    py_sum (vol_fractions (model t')) == 1.
Proof.
  intros Hsuper (Hidx & Hp & Hnn & Hsum) Hc.
  destruct (lookup_lt_is_Some_2 _ _ (py_index_lt _ _ _ Hidx)) as [f Hf].
  pose proof (scaled_sum_pos _ n f _ Hnn Hf Hsum Hp) as Hpos.
  assert (Hne : ~ py_sum (<[n := f * (1 - pcm_vol_fraction t1)]>
                            (vol_fractions (model t1))) == 0) by lra.
  exists (augmented_rc t1 f c rc), (augmented t1 n f), f.
  split; [exact (load_rc_data_run t t1 rc n f c Hsuper Hidx Hf Hne Hc)|].
  split; [exact Hf|].
  split; [reflexivity|].
  unfold augmented. cbn [vol_fractions model with_model set_vol_fractions].
  rewrite py_sum_map_div. field. exact Hne.
Qed.

(** C4 (as the code has it).  With [pcm_vol_fraction = 0], once the base
    method has returned its mapping with the host capacitance in it and
    the fractions sum to 1, [load_rc_data] returns a mapping in which
    every entry of the base mapping other than the two PCM keys has its
    base value, the host capacitance included; the total volume and the
    volume fractions are numerically unchanged.  The two PCM keys are
    written all the same, each with the value 0. *)
Theorem C4_zero_fraction_keeps_base (t t1 : TankWithPCM)
    (rc : gmap string Q) (n : nat) (c : Q) :
  super_load_rc_data t = (Ok rc, t1) ->
  pcm_vol_fraction t1 == 0 ->
  py_index (length (vol_fractions (model t1))) (pcm_water_node t1) = Some n ->
  py_sum (vol_fractions (model t1)) == 1 ->
  rc !! c_wh_key (pcm_water_node t1) = Some c ->
  exists (rc' : gmap string Q) (t' : TankWithPCM),
    load_rc_data t = (Ok rc', t') /\
    (forall key : string,
       key <> "C_PCM"%string -> key <> r_pcm_wh_key (pcm_water_node t1) ->
       entry_eq (rc' !! key) (rc !! key)) /\
    entry_eq (rc' !! "C_PCM"%string) (Some 0) /\
    entry_eq (rc' !! r_pcm_wh_key (pcm_water_node t1)) (Some 0) /\
    volume (model t') == volume (model t1) /\
    array_eq (vol_fractions (model t')) (vol_fractions (model t1)).
Proof.
  intros Hsuper Hp Hidx Hsum Hc.
  destruct (lookup_lt_is_Some_2 _ _ (py_index_lt _ _ _ Hidx)) as [f Hf].
  pose proof (scaled_sum _ n f (pcm_vol_fraction t1) Hf Hsum) as Hs.
  assert (Hone : py_sum (<[n := f * (1 - pcm_vol_fraction t1)]>
                           (vol_fractions (model t1))) == 1).
  { rewrite Hs, Hp. ring. }
  assert (Hne : ~ py_sum (<[n := f * (1 - pcm_vol_fraction t1)]>
                            (vol_fractions (model t1))) == 0).
  { rewrite Hone. discriminate. }
  exists (augmented_rc t1 f c rc), (augmented t1 n f).
  split; [exact (load_rc_data_run t t1 rc n f c Hsuper Hidx Hf Hne Hc)|].
  unfold augmented_rc, augmented.
  cbn [vol_fractions volume model with_model set_vol_fractions set_volume].
  repeat split.
  - intros key Hk1 Hk2.
    rewrite lookup_insert_ne by congruence.
    destruct (decide (key = c_wh_key (pcm_water_node t1))) as [->|Hk3].
    + rewrite lookup_insert_eq, Hc. constructor. rewrite Hp. ring.
    + rewrite !lookup_insert_ne by congruence. apply entry_eq_refl.
  - rewrite lookup_insert_ne by apply r_key_not_pcm.
    rewrite lookup_insert_ne by apply c_wh_key_not_pcm.
    rewrite lookup_insert_eq. constructor. rewrite Hp. ring.
  - rewrite lookup_insert_eq. constructor. rewrite Hp.
    unfold Qdiv. ring.
  - rewrite Hp. ring.
  - apply (array_eq_normalize _ n f);
      [exact Hf | rewrite Hp; ring | exact Hone].
Qed.

(** C7 (as the code has it).  Over one base mapping with a positive
    host capacitance [c], the host capacitance that [load_rc_data]
    returns is the product [c * (1 - p)] for the object's
    [pcm_vol_fraction] [p]: of two objects the one with the larger
    fraction never gets the larger entry, and the entry is never
    negative for [p < 1]. *)
Theorem C7_host_capacitance_monotone (ta ta1 tb tb1 : TankWithPCM)
    (rc : gmap string Q) (na nb : nat) (fa fb c : Q) :
  super_load_rc_data ta = (Ok rc, ta1) ->
  super_load_rc_data tb = (Ok rc, tb1) ->
  pcm_water_node ta1 = pcm_water_node tb1 ->
  augmentable ta1 na fa ->
  augmentable tb1 nb fb ->
  rc !! c_wh_key (pcm_water_node ta1) = Some c ->
  0 < c ->
  exists (rca rcb : gmap string Q) (ta' tb' : TankWithPCM),
    load_rc_data ta = (Ok rca, ta') /\
    load_rc_data tb = (Ok rcb, tb') /\
    rca !! c_wh_key (pcm_water_node ta1)
    = Some (c * (1 - pcm_vol_fraction ta1)) /\
    rcb !! c_wh_key (pcm_water_node ta1)
    = Some (c * (1 - pcm_vol_fraction tb1)) /\
    (pcm_vol_fraction ta1 <= pcm_vol_fraction tb1 ->
     c * (1 - pcm_vol_fraction tb1) <= c * (1 - pcm_vol_fraction ta1)) /\
    (pcm_vol_fraction ta1 < 1 -> 0 <= c * (1 - pcm_vol_fraction ta1)).
Proof.
  intros Ha Hb Hk (Hia & Hfa & Hna) (Hib & Hfb & Hnb) Hc Hpos.
  assert (Hcb : rc !! c_wh_key (pcm_water_node tb1) = Some c)
    by (rewrite <- Hk; exact Hc).
  exists (augmented_rc ta1 fa c rc), (augmented_rc tb1 fb c rc),
    (augmented ta1 na fa), (augmented tb1 nb fb).
  split; [exact (load_rc_data_run ta ta1 rc na fa c Ha Hia Hfa Hna Hc)|].
  split; [exact (load_rc_data_run tb tb1 rc nb fb c Hb Hib Hfb Hnb Hcb)|].
  unfold augmented_rc. rewrite <- Hk.
  rewrite !(lookup_insert_ne _ (r_pcm_wh_key _)) by apply r_key_not_c_wh.
  rewrite !lookup_insert_eq.
  repeat split; intros; nra.
Qed.

(** C8.  On a tank of volume 100 whose node 5 has the share 0.1 and of
    which half is turned into PCM, [load_rc_data] takes the PCM volume
    to be 5, sets [C_PCM] to 1717.6 * 5 = 8588 and [R_PCM_WH6] to
    5 / 0.28 = 125/7, which lies between 17.857 and 17.858. *)
Theorem C8_scenario_values (t t1 : TankWithPCM) (rc : gmap string Q)
    (f c : Q) :
  super_load_rc_data t = (Ok rc, t1) ->
  volume (model t1) == 100 ->
  pcm_water_node t1 = 5%Z ->
  pcm_vol_fraction t1 == 0.5 ->
  augmentable t1 5 f ->
  f == 0.1 ->
  rc !! "C_WH6"%string = Some c ->
  exists (rc' : gmap string Q) (t' : TankWithPCM) (c_pcm r_pcm : Q),
    load_rc_data t = (Ok rc', t') /\
    volume (model t1) - volume (model t') == 5 /\
    rc' !! "C_PCM"%string = Some c_pcm /\
    c_pcm == pcm_c solid * 5 /\ c_pcm == 8588 /\
    rc' !! "R_PCM_WH6"%string = Some r_pcm /\
    r_pcm == 5 / pcm_conductivity solid /\ r_pcm == 125 # 7 /\
    17.857 < r_pcm /\ r_pcm < 17.858.
Proof.
  intros Hsuper Hv Hk Hp (Hidx & Hf & Hne) Hf01 Hc.
  assert (Hkey : c_wh_key (pcm_water_node t1) = "C_WH6"%string)
    by (rewrite Hk; reflexivity).
  assert (Hrkey : r_pcm_wh_key (pcm_water_node t1) = "R_PCM_WH6"%string)
    by (rewrite Hk; reflexivity).
  rewrite <- Hkey in Hc.
  exists (augmented_rc t1 f c rc), (augmented t1 5 f),
    (pcm_c solid * (volume (model t1) * f * pcm_vol_fraction t1)),
    (volume (model t1) * f * pcm_vol_fraction t1 / pcm_conductivity solid).
  split; [exact (load_rc_data_run t t1 rc 5 f c Hsuper Hidx Hf Hne Hc)|].
  unfold augmented_rc, augmented.
  cbn [vol_fractions volume model with_model set_vol_fractions set_volume].
  rewrite Hkey, Hrkey.
  assert (Hvol : volume (model t1) * f * pcm_vol_fraction t1 == 5).
  { rewrite Hv, Hf01, Hp. reflexivity. }
  split; [rewrite Hvol; ring|].
  split.
  { rewrite lookup_insert_ne by discriminate.
    rewrite lookup_insert_ne by discriminate.
    apply lookup_insert_eq. }
  split; [rewrite Hvol; reflexivity|].
  split; [rewrite Hvol; reflexivity|].
  split; [apply lookup_insert_eq|].
  split; [rewrite Hvol; reflexivity|].
  assert (Hr : volume (model t1) * f * pcm_vol_fraction t1
               / pcm_conductivity solid == 125 # 7).
  { rewrite Hvol. reflexivity. }
  split; [exact Hr|].
  rewrite Hr. split; reflexivity.
Qed.


End AugmenterClaims.

(** The configuration of the scenario: ten nodes of share 0.1, node 5,
    half of it turned into PCM. *)
Lemma C3_fractions_renormalized_witness :
  exists (rc' : gmap string Q) (t' : TankWithPCM) (f : Q),
    @load_rc_data demo_base (demo_tank 0.5) = (Ok rc', t') /\
    vol_fractions (model (demo_tank 0.5)) !! 5%nat = Some f /\
    (let scaled :=
       <[5%nat := f * (1 - 0.5)]> (vol_fractions (model (demo_tank 0.5))) in
     vol_fractions (model t') = map (fun x => x / py_sum scaled) scaled) /\
    py_sum (vol_fractions (model t')) == 1.
Proof.
  apply (@C3_fractions_renormalized demo_base (demo_tank 0.5) (demo_tank 0.5)
           (demo_capacitances 100 1 demo_fractions) 5
           (water_c * (100 * 0.1))).
  - reflexivity.
  - repeat split; try (vm_compute; congruence).
    repeat constructor; vm_compute; congruence.
  - vm_compute. reflexivity.
Defined.

(** C4 as stated fails: with [pcm_vol_fraction = 0] the returned mapping
    is not the base mapping, it has the entry [C_PCM] that the base
    mapping lacks. *)
Lemma C4_counterexample :
  exists (rc rc' : gmap string Q) (t' : TankWithPCM),
    @super_load_rc_data demo_base (demo_tank 0) = (Ok rc, demo_tank 0) /\
    @load_rc_data demo_base (demo_tank 0) = (Ok rc', t') /\
    rc !! "C_PCM"%string = None /\
    is_Some (rc' !! "C_PCM"%string) /\
    rc' <> rc.
Proof.
  exists (demo_capacitances 100 1 demo_fractions),
    (augmented_rc (demo_tank 0) 0.1 (water_c * (100 * 0.1))
       (demo_capacitances 100 1 demo_fractions)),
    (augmented (demo_tank 0) 5 0.1).
  split; [reflexivity|].
  split.
  - apply (@load_rc_data_run demo_base (demo_tank 0) (demo_tank 0)
             (demo_capacitances 100 1 demo_fractions) 5 0.1
             (water_c * (100 * 0.1))); try reflexivity.
    vm_compute. congruence.
  - assert (Hnone : demo_capacitances 100 1 demo_fractions !! "C_PCM"%string
                    = None) by (vm_compute; reflexivity).
    split; [exact Hnone|].
    unfold augmented_rc.
    rewrite lookup_insert_ne by apply r_key_not_pcm.
    rewrite lookup_insert_ne by apply c_wh_key_not_pcm.
    rewrite lookup_insert_eq.
    split; [eexists; reflexivity|].
    intros Heq.
    assert (Hl := f_equal (fun m : gmap string Q => m !! "C_PCM"%string) Heq).
    cbv beta in Hl. rewrite Hnone in Hl.
    rewrite lookup_insert_ne in Hl by apply r_key_not_pcm.
    rewrite lookup_insert_ne in Hl by apply c_wh_key_not_pcm.
    rewrite lookup_insert_eq in Hl. discriminate.
Qed.

Lemma C4_zero_fraction_keeps_base_witness :
  exists (rc' : gmap string Q) (t' : TankWithPCM),
    @load_rc_data demo_base (demo_tank 0) = (Ok rc', t') /\
    (forall key : string,
       key <> "C_PCM"%string -> key <> r_pcm_wh_key 5 ->
       entry_eq (rc' !! key) (demo_capacitances 100 1 demo_fractions !! key)) /\
    entry_eq (rc' !! "C_PCM"%string) (Some 0) /\
    entry_eq (rc' !! r_pcm_wh_key 5) (Some 0) /\
    volume (model t') == 100 /\
    array_eq (vol_fractions (model t')) demo_fractions.
Proof.
  apply (@C4_zero_fraction_keeps_base demo_base (demo_tank 0) (demo_tank 0)
           (demo_capacitances 100 1 demo_fractions) 5
           (water_c * (100 * 0.1))).
  - reflexivity.
  - reflexivity.
  - reflexivity.
  - vm_compute. reflexivity.
  - vm_compute. reflexivity.
Defined.

(** The same base network under a fraction of 0.25 and of 0.5. *)
Lemma C7_host_capacitance_monotone_witness :
  exists (rca rcb : gmap string Q) (ta' tb' : TankWithPCM),
    @load_rc_data demo_base (demo_tank 0.25) = (Ok rca, ta') /\
    @load_rc_data demo_base (demo_tank 0.5) = (Ok rcb, tb') /\
    rca !! c_wh_key 5 = Some (water_c * (100 * 0.1) * (1 - 0.25)) /\
    rcb !! c_wh_key 5 = Some (water_c * (100 * 0.1) * (1 - 0.5)) /\
    (0.25 <= 0.5 ->
     water_c * (100 * 0.1) * (1 - 0.5)
     <= water_c * (100 * 0.1) * (1 - 0.25)) /\
    (0.25 < 1 -> 0 <= water_c * (100 * 0.1) * (1 - 0.25)).
Proof.
  apply (@C7_host_capacitance_monotone demo_base
           (demo_tank 0.25) (demo_tank 0.25) (demo_tank 0.5) (demo_tank 0.5)
           (demo_capacitances 100 1 demo_fractions) 5 5 0.1 0.1
           (water_c * (100 * 0.1))).
  - reflexivity.
  - reflexivity.
  - reflexivity.
  - repeat split; try reflexivity. vm_compute. congruence.
  - repeat split; try reflexivity. vm_compute. congruence.
  - vm_compute. reflexivity.
  - reflexivity.
Defined.

(** C7 as stated fails in binary64.  Line 67 turns a host capacitance
    of 41830 into 29280.999999999996 both for the fraction 0.3 and for
    the larger fraction 0.1 + 0.2, so the entry does not strictly
    decrease; and a positive capacitance of 5e-324 with the fraction
    0.5 gives 0, so the entry does not stay strictly positive. *)
Lemma C7_counterexample :
  PrimFloat.ltb 0.3 (0.1 + 0.2) = true /\
  Binary64.host_capacitance 41830 0.3 = 29280.999999999996%float /\
  Binary64.host_capacitance 41830 (0.1 + 0.2) = 29280.999999999996%float /\
  PrimFloat.ltb (Binary64.host_capacitance 41830 (0.1 + 0.2))
    (Binary64.host_capacitance 41830 0.3) = false /\
  PrimFloat.ltb 0 5e-324 = true /\
  PrimFloat.ltb 0.5 1 = true /\
  Binary64.host_capacitance 5e-324 0.5 = 0%float /\
  PrimFloat.ltb 0 (Binary64.host_capacitance 5e-324 0.5) = false.
Proof. repeat split; reflexivity. Qed.

Lemma C8_scenario_values_witness :
  exists (rc' : gmap string Q) (t' : TankWithPCM) (c_pcm r_pcm : Q),
    @load_rc_data demo_base (demo_tank 0.5) = (Ok rc', t') /\
    100 - volume (model t') == 5 /\
    rc' !! "C_PCM"%string = Some c_pcm /\
    c_pcm == pcm_c solid * 5 /\ c_pcm == 8588 /\
    rc' !! "R_PCM_WH6"%string = Some r_pcm /\
    r_pcm == 5 / pcm_conductivity solid /\ r_pcm == 125 # 7 /\
    17.857 < r_pcm /\ r_pcm < 17.858.
Proof.
  apply (@C8_scenario_values demo_base (demo_tank 0.5) (demo_tank 0.5)
           (demo_capacitances 100 1 demo_fractions) 0.1
           (water_c * (100 * 0.1))).
  - reflexivity.
  - reflexivity.
  - reflexivity.
  - reflexivity.
  - repeat split; try reflexivity. vm_compute. congruence.
  - reflexivity.
  - vm_compute. reflexivity.
Defined.



Lemma demo_tank_augmentable : augmentable (demo_tank 0.5) 5 0.1.
Proof. repeat split. vm_compute. congruence. Qed.

Lemma demo_tank_valid : valid_config (demo_tank 0.5) 5.
Proof.
  repeat split; try (vm_compute; congruence).
  repeat constructor; vm_compute; congruence.
Qed.



(** The two calls on the demo tank in binary64: the volume goes from
    100 to 95 and then to 92.5, and the host share from 0.1 to 0.0526
    and then to 0.027. *)
Lemma binary64_second_call :
  Binary64.reduced_volume 100 0.1 0.5 = 95%float /\
  Binary64.rescaled (replicate 10 0.1%float) 5 0.5
  = Some [0.10526315789473685; 0.10526315789473685; 0.10526315789473685;
          0.10526315789473685; 0.10526315789473685; 0.052631578947368425;
          0.10526315789473685; 0.10526315789473685; 0.10526315789473685;
          0.10526315789473685]%float /\
  Binary64.reduced_volume 95 0.052631578947368425 0.5 = 92.5%float /\
  Binary64.rescaled
    [0.10526315789473685; 0.10526315789473685; 0.10526315789473685;
     0.10526315789473685; 0.10526315789473685; 0.052631578947368425;
     0.10526315789473685; 0.10526315789473685; 0.10526315789473685;
     0.10526315789473685]%float 5 0.5
  = Some [0.10810810810810811; 0.10810810810810811; 0.10810810810810811;
          0.10810810810810811; 0.10810810810810811; 0.027027027027027029;
          0.10810810810810811; 0.10810810810810811; 0.10810810810810811;
          0.10810810810810811]%float.
Proof. repeat split; reflexivity. Qed.

(** A fraction small enough is absorbed by the rounding of lines 62 to
    64: the call leaves the volume and the fractions as they were, and
    so does every call after it. *)
Lemma binary64_absorbed_fraction :
  PrimFloat.ltb 0 1e-16 = true /\
  Binary64.reduced_volume 100 0.1 1e-16 = 100%float /\
  Binary64.rescaled [0.5; 0.5]%float 0 1e-17 = Some [0.5; 0.5]%float.
Proof. repeat split; reflexivity. Qed.

(** * The input vector composer: [update_inputs] *)

Section ComposerClaims.
Context {Base : BaseModel} {Sub : Subclass}.

(** A run of [update_inputs] in which nothing is raised: [t1], [t2] and
    [t3] are the object after the base method, after the water draw and
    after the heat-transfer call. *)
Lemma update_inputs_run (schedule_inputs : option (gmap string Q))
    (t t1 t2 t3 : TankWithPCM) (t_zone q x y : Q) (h : list Q) (i : nat) :
  super_update_inputs schedule_inputs t = (Ok tt, t1) ->
  current_schedule (model t1) !! "Zone Temperature (C)"%string = Some t_zone ->
  update_water_draw t1 = (Ok h, t2) ->
  self_get_pcm_heat_xfer t2 = (Ok q, t3) ->
  py_index (length h) (pcm_water_node t3) = Some i ->
  h !! i = Some x ->
  <[i := x + q]> h !! t_pcm_idx t3 = Some y ->
  update_inputs schedule_inputs t
  = (Ok tt,
     with_model
       (set_inputs_init
          (t_zone :: <[t_pcm_idx t3 := y - q]> (<[i := x + q]> h)))
       (set_pcm_heat_to_water (Some q) t3)).
Proof.
  intros Hsuper Hzone Hdraw Hxfer Hi Hx Hy.
  unfold update_inputs. run_method.
  rewrite Hsuper, Hzone, Hdraw, Hxfer.
  cbn [pcm_water_node t_pcm_idx set_pcm_heat_to_water].
  unfold np_update. rewrite Hi. cbn. rewrite Hx. cbn.
  rewrite length_insert.
  rewrite (py_index_of_nat (length h) (t_pcm_idx t3)).
  - cbn. rewrite Hy. reflexivity.
  - apply lookup_lt_Some in Hy. rewrite length_insert in Hy. exact Hy.
Qed.

(** C1 (as the code has it).  In a step whose heat-transfer call
    returns [q], [update_inputs] records [q], adds it to the host node's
    entry of the injection vector [h] that the water draw produced and
    subtracts the same [q] from the PCM node's entry of the same vector;
    no other entry changes and the vector keeps its length.  Each of
    the two entries is the result of one operation of its own: that the
    two gains cancel is up to the rounding of each and is not stated. *)
Theorem C1_flux_applied_to_both_entries
    (schedule_inputs : option (gmap string Q))
    (t t1 t2 t3 : TankWithPCM) (t_zone q x y : Q) (h : list Q) (i : nat) :
  super_update_inputs schedule_inputs t = (Ok tt, t1) ->
  current_schedule (model t1) !! "Zone Temperature (C)"%string = Some t_zone ->
  update_water_draw t1 = (Ok h, t2) ->
  self_get_pcm_heat_xfer t2 = (Ok q, t3) ->
  py_index (length h) (pcm_water_node t3) = Some i ->
  h !! i = Some x ->
  h !! t_pcm_idx t3 = Some y ->
  i <> t_pcm_idx t3 ->
  exists (t' : TankWithPCM) (h' : list Q),
    update_inputs schedule_inputs t = (Ok tt, t') /\
    pcm_heat_to_water t' = Some q /\
    inputs_init (model t') = t_zone :: h' /\
    length h' = length h /\
    h' !! i = Some (x + q) /\
    h' !! t_pcm_idx t3 = Some (y - q) /\
    (forall m : nat, m <> i -> m <> t_pcm_idx t3 -> h' !! m = h !! m).
Proof.
  intros Hsuper Hzone Hdraw Hxfer Hi Hx Hy Hij.
  assert (Hy1 : <[i := x + q]> h !! t_pcm_idx t3 = Some y)
    by (rewrite list_lookup_insert_ne by exact Hij; exact Hy).
  pose proof (lookup_lt_Some _ _ _ Hx) as Hlti.
  pose proof (lookup_lt_Some _ _ _ Hy) as Hltj.
  eexists _, (<[t_pcm_idx t3 := y - q]> (<[i := x + q]> h)).
  split.
  { exact (update_inputs_run schedule_inputs t t1 t2 t3 t_zone q x y h i
             Hsuper Hzone Hdraw Hxfer Hi Hx Hy1). }
  split; [reflexivity|].
  split; [reflexivity|].
  split; [rewrite !length_insert; reflexivity|].
  split.
  { rewrite list_lookup_insert_ne by congruence.
    apply list_lookup_insert_eq. exact Hlti. }
  split.
  { apply list_lookup_insert_eq. rewrite length_insert. exact Hltj. }
  intros m Hmi Hmj. rewrite !list_lookup_insert_ne by congruence.
  reflexivity.
Qed.

(** C2 (as the code has it).  In a step in which nothing is raised,
    [update_inputs] assigns [inputs_init]: whatever it held before, it
    then holds the zone temperature followed by the injection vector
    with the PCM flux folded in.  Next to it the PCM layer assigns only
    [pcm_heat_to_water]; every other attribute is as the base calls
    left it. *)
Theorem C2_inputs_init_overwritten
    (schedule_inputs : option (gmap string Q))
    (t t1 t2 t3 : TankWithPCM) (t_zone q x y : Q) (h : list Q) (i : nat) :
  super_update_inputs schedule_inputs t = (Ok tt, t1) ->
  current_schedule (model t1) !! "Zone Temperature (C)"%string = Some t_zone ->
  update_water_draw t1 = (Ok h, t2) ->
  self_get_pcm_heat_xfer t2 = (Ok q, t3) ->
  py_index (length h) (pcm_water_node t3) = Some i ->
  h !! i = Some x ->
  <[i := x + q]> h !! t_pcm_idx t3 = Some y ->
  exists t' : TankWithPCM,
    update_inputs schedule_inputs t = (Ok tt, t') /\
    inputs_init (model t')
    = t_zone :: <[t_pcm_idx t3 := y - q]> (<[i := x + q]> h) /\
    t' = with_model (set_inputs_init (inputs_init (model t')))
           (set_pcm_heat_to_water (Some q) t3).
Proof.
  intros Hsuper Hzone Hdraw Hxfer Hi Hx Hy.
  eexists. split.
  { exact (update_inputs_run schedule_inputs t t1 t2 t3 t_zone q x y h i
             Hsuper Hzone Hdraw Hxfer Hi Hx Hy). }
  split; reflexivity.
Qed.

End ComposerClaims.

(** * The abstract heat-transfer capability *)

Section CapabilityClaims.
Context {Base : BaseModel}.

(** C6.  [get_pcm_heat_xfer] as [TankWithPCM] defines it raises
    [NotImplementedError] on every object and changes nothing.  On an
    object of that class [update_inputs] never completes, and whenever
    the steps before the call go through it ends in that very
    [NotImplementedError], with the object as the water draw left it:
    nothing is put in [pcm_heat_to_water] or [inputs_init] in place of
    the missing value. *)
Theorem C6_unimplemented_capability_raises :
  (forall t : TankWithPCM,
     get_pcm_heat_xfer t = (Raise NotImplementedError, t)) /\
  (forall (schedule_inputs : option (gmap string Q)) (t t' : TankWithPCM)
          (u : unit),
     @update_inputs Base TankWithPCM_own schedule_inputs t <> (Ok u, t')) /\
  (forall (schedule_inputs : option (gmap string Q))
          (t t1 t2 : TankWithPCM) (t_zone : Q) (h : list Q),
     super_update_inputs schedule_inputs t = (Ok tt, t1) ->
     current_schedule (model t1) !! "Zone Temperature (C)"%string
     = Some t_zone ->
     update_water_draw t1 = (Ok h, t2) ->
     @update_inputs Base TankWithPCM_own schedule_inputs t
     = (Raise NotImplementedError, t2)).
Proof.
  split; [reflexivity|].
  split.
  - intros schedule_inputs t t' u.
    unfold update_inputs. run_method.
    destruct (super_update_inputs schedule_inputs t) as [[[]|e] t1];
      [|discriminate].
    destruct (current_schedule (model t1) !! _); [|discriminate].
    destruct (update_water_draw t1) as [[h|e] t2]; discriminate.
  - intros schedule_inputs t t1 t2 t_zone h Hsuper Hzone Hdraw.
    unfold update_inputs. run_method.
    rewrite Hsuper, Hzone, Hdraw. reflexivity.
Qed.

End CapabilityClaims.

(** The demo step: zone at 20, no draw, 10 W from the PCM to node 5. *)
Lemma C1_flux_applied_to_both_entries_witness :
  exists (t' : TankWithPCM) (h' : list Q),
    @update_inputs demo_base demo_subclass None (demo_tank 0.5) = (Ok tt, t') /\
    pcm_heat_to_water t' = Some 10 /\
    inputs_init (model t') = 20 :: h' /\
    length h' = 11%nat /\
    h' !! 5%nat = Some (0 + 10) /\
    h' !! 10%nat = Some (0 - 10) /\
    (forall m : nat, m <> 5%nat -> m <> 10%nat ->
       h' !! m = replicate 11 0 !! m).
Proof.
  apply (@C1_flux_applied_to_both_entries demo_base demo_subclass None
           (demo_tank 0.5) (demo_tank 0.5) (demo_tank 0.5) (demo_tank 0.5)
           20 10 0 0 (replicate 11 0) 5).
  - reflexivity.
  - reflexivity.
  - reflexivity.
  - reflexivity.
  - reflexivity.
  - reflexivity.
  - reflexivity.
  - cbn. lia.
Defined.

(** C1 as stated fails in binary64.  With 0.1 at the host entry, 0 at
    the PCM entry and a flux of 0.2, lines 90 and 91 leave
    0.30000000000000004 and -0.2: the two entries together gain
    2.8e-17, not zero, and the sum of the vector changes.  With an
    infinite flux the entries are plus and minus infinity and their
    net gain is not a number. *)
Lemma C1_counterexample :
  Binary64.fold_flux [0.1; 0]%float 0 1 0.2
  = Some [0.30000000000000004; -0.2]%float /\
  Binary64.net_gain 0.1 0 0.2 = 2.7755575615628914e-17%float /\
  PrimFloat.eqb (Binary64.net_gain 0.1 0 0.2) 0 = false /\
  Binary64.py_sum [0.1; 0]%float = 0.1%float /\
  Binary64.py_sum [0.30000000000000004; -0.2]%float
  = 0.10000000000000003%float /\
  Binary64.fold_flux [0; 0]%float 0 1 infinity
  = Some [infinity; neg_infinity] /\
  Binary64.net_gain 0 0 infinity = nan.
Proof. repeat split; reflexivity. Qed.

(** C2 as stated fails: the demo step completes and leaves in
    [inputs_init] something else than was there, although neither base
    call nor the heat-transfer call touches the object. *)
Lemma C2_counterexample :
  snd (@super_update_inputs demo_base None (demo_tank 0.5)) = demo_tank 0.5 /\
  snd (@update_water_draw demo_base (demo_tank 0.5)) = demo_tank 0.5 /\
  snd (@self_get_pcm_heat_xfer demo_subclass (demo_tank 0.5)) = demo_tank 0.5 /\
  exists t' : TankWithPCM,
    @update_inputs demo_base demo_subclass None (demo_tank 0.5) = (Ok tt, t') /\
    inputs_init (model (demo_tank 0.5)) = [] /\
    inputs_init (model t')
    = 20 :: <[10%nat := 0 - 10]> (<[5%nat := 0 + 10]> (replicate 11 0)) /\
    inputs_init (model t') <> inputs_init (model (demo_tank 0.5)).
Proof.
  repeat (split; [reflexivity|]).
  eexists. split.
  - apply (@update_inputs_run demo_base demo_subclass None
             (demo_tank 0.5) (demo_tank 0.5) (demo_tank 0.5) (demo_tank 0.5)
             20 10 0 0 (replicate 11 0) 5); reflexivity.
  - repeat split. discriminate.
Qed.

Lemma C2_inputs_init_overwritten_witness :
  exists t' : TankWithPCM,
    @update_inputs demo_base demo_subclass None (demo_tank 0.5) = (Ok tt, t') /\
    inputs_init (model t')
    = 20 :: <[10%nat := 0 - 10]> (<[5%nat := 0 + 10]> (replicate 11 0)) /\
    t' = with_model (set_inputs_init (inputs_init (model t')))
           (set_pcm_heat_to_water (Some 10) (demo_tank 0.5)).
Proof.
  apply (@C2_inputs_init_overwritten demo_base demo_subclass None
           (demo_tank 0.5) (demo_tank 0.5) (demo_tank 0.5) (demo_tank 0.5)
           20 10 0 0 (replicate 11 0) 5); reflexivity.
Defined.

Lemma C6_unimplemented_capability_raises_witness :
  @update_inputs demo_base TankWithPCM_own None (demo_tank 0.5)
  = (Raise NotImplementedError, demo_tank 0.5).
Proof.
  apply (proj2 (proj2 (@C6_unimplemented_capability_raises demo_base))
           None (demo_tank 0.5) (demo_tank 0.5) (demo_tank 0.5) 20
           (replicate 11 0)); reflexivity.
Defined.

(** * The result reporter: [generate_results] *)

Section ReporterClaims.
Context {Base : BaseModel}.

Lemma pcm_result_keys_elem (k : string) :
  k ∈ pcm_result_keys <->
  k = "Hot Water Average Temperature (C)"%string \/
  k = "Hot Water Maximum Temperature (C)"%string \/
  k = "Hot Water Minimum Temperature (C)"%string \/
  k = "Water Tank PCM Temperature (C)"%string \/
  k = "Water Tank PCM Heat Injected (W)"%string.
Proof.
  unfold pcm_result_keys.
  rewrite !elem_of_union, !elem_of_singleton. tauto.
Qed.

Lemma generate_results_quiet (t : TankWithPCM) :
  (verbosity (model (snd (super_generate_results t))) < 6)%Z ->
  generate_results t = super_generate_results t.
Proof.
  intros Hv. unfold generate_results. run_method.
  destruct (super_generate_results t) as [[res|e] t1]; [|reflexivity].
  cbn in Hv. destruct (6 <=? verbosity (model t1))%Z eqn:E; [lia|reflexivity].
Qed.

(** C9.  Below verbosity 6 [generate_results] hands back the base
    mapping as it is, so none of the five keys is there unless the base
    put it there.  From verbosity 6 on, with as many water states as
    volume fractions, at least one of them, and the PCM state in range,
    it returns the base mapping with exactly the five keys written:
    average, maximum, minimum, PCM temperature and PCM heat injected;
    every other key is as in the base mapping. *)
Theorem C9_reporter_keys (t t1 : TankWithPCM) (res : gmap string value) :
  super_generate_results t = (Ok res, t1) ->
  ((verbosity (model t1) < 6)%Z ->
   generate_results t = (Ok res, t1) /\
   (forall k : string, k ∈ pcm_result_keys -> res !! k = None ->
      exists res' : gmap string value,
        fst (generate_results t) = Ok res' /\ res' !! k = None)) /\
  ((6 <= verbosity (model t1))%Z ->
   length (take (n_nodes (model t1)) (states (model t1)))
   = length (vol_fractions (model t1)) ->
   (0 < length (take (n_nodes (model t1)) (states (model t1))))%nat ->
   (t_pcm_idx t1 < length (states (model t1)))%nat ->
   exists (res' : gmap string value) (hi lo t_pcm : Q),
     generate_results t = (Ok res', t1) /\
     dom res' = dom res ∪ pcm_result_keys /\
     (forall k : string, k ∉ pcm_result_keys -> res' !! k = res !! k) /\
     res' !! "Hot Water Average Temperature (C)"%string
     = Some (VFloat (dot (take (n_nodes (model t1)) (states (model t1)))
                         (vol_fractions (model t1)))) /\
     np_max (take (n_nodes (model t1)) (states (model t1))) = Some hi /\
     res' !! "Hot Water Maximum Temperature (C)"%string = Some (VFloat hi) /\
     np_min (take (n_nodes (model t1)) (states (model t1))) = Some lo /\
     res' !! "Hot Water Minimum Temperature (C)"%string = Some (VFloat lo) /\
     states (model t1) !! t_pcm_idx t1 = Some t_pcm /\
     res' !! "Water Tank PCM Temperature (C)"%string = Some (VFloat t_pcm) /\
     res' !! "Water Tank PCM Heat Injected (W)"%string
     = Some (h_injections (model t1))).
Proof.
  intros Hsuper. split.
  - intros Hv.
    assert (Hq : generate_results t = (Ok res, t1)).
    { rewrite generate_results_quiet; rewrite Hsuper; [reflexivity|exact Hv]. }
    split; [exact Hq|].
    intros k _ Hk. exists res. rewrite Hq. split; [reflexivity|exact Hk].
  - intros Hv Hlen Hpos Hidx.
    destruct (lookup_lt_is_Some_2 _ _ Hidx) as [t_pcm Ht].
    unfold generate_results. run_method.
    rewrite Hsuper.
    destruct (6 <=? verbosity (model t1))%Z eqn:E; [|lia].
    unfold np_dot. rewrite decide_True by exact Hlen.
    destruct (take (n_nodes (model t1)) (states (model t1))) as [|w ws] eqn:Ew;
      [cbn in Hpos; lia|].
    cbn [np_max np_min].
    unfold np_getitem. rewrite py_index_of_nat by exact Hidx.
    cbn. rewrite Ht.
    eexists _, (fold_left Qmax ws w), (fold_left Qmin ws w), t_pcm.
    split; [reflexivity|].
    split.
    { apply set_eq. intros k.
      rewrite !dom_insert_L, !elem_of_union, pcm_result_keys_elem.
      rewrite !elem_of_singleton. tauto. }
    split.
    { intros k Hk. rewrite pcm_result_keys_elem in Hk.
      rewrite !lookup_insert_ne by (intros <-; apply Hk; tauto).
      reflexivity. }
    repeat split; try reflexivity;
      repeat (first [ apply lookup_insert_eq
                    | rewrite lookup_insert_ne by discriminate ]).
Qed.

End ReporterClaims.

(** A verbose and a quiet run of the reporter on the demo tank. *)
Lemma C9_reporter_keys_witness :
  ((3 < 6)%Z ->
   @generate_results demo_base (demo_tank 0.5) = (Ok ∅, demo_tank 0.5) /\
   (forall k : string, k ∈ pcm_result_keys ->
      (∅ : gmap string value) !! k = None ->
      exists res' : gmap string value,
        fst (@generate_results demo_base (demo_tank 0.5)) = Ok res' /\
        res' !! k = None)) /\
  exists (res' : gmap string value) (hi lo t_pcm : Q),
    @generate_results demo_base
      (with_model (with_verbosity 6) (demo_tank 0.5))
    = (Ok res', with_model (with_verbosity 6) (demo_tank 0.5)) /\
    dom res' = dom (∅ : gmap string value) ∪ pcm_result_keys /\
    (forall k : string, k ∉ pcm_result_keys ->
       res' !! k = (∅ : gmap string value) !! k) /\
    res' !! "Hot Water Average Temperature (C)"%string
    = Some (VFloat (dot (take 10 (states demo_model)) demo_fractions)) /\
    np_max (take 10 (states demo_model)) = Some hi /\
    res' !! "Hot Water Maximum Temperature (C)"%string = Some (VFloat hi) /\
    np_min (take 10 (states demo_model)) = Some lo /\
    res' !! "Hot Water Minimum Temperature (C)"%string = Some (VFloat lo) /\
    states demo_model !! 10%nat = Some t_pcm /\
    res' !! "Water Tank PCM Temperature (C)"%string = Some (VFloat t_pcm) /\
    res' !! "Water Tank PCM Heat Injected (W)"%string = Some VNone.
Proof.
  split.
  - apply (@C9_reporter_keys demo_base (demo_tank 0.5) (demo_tank 0.5) ∅).
    reflexivity.
  - apply (@C9_reporter_keys demo_base
             (with_model (with_verbosity 6) (demo_tank 0.5))
             (with_model (with_verbosity 6) (demo_tank 0.5)) ∅).
    + reflexivity.
    + cbn. lia.
    + reflexivity.
    + cbn. lia.
    + cbn. lia.
Defined.

(** * The constructor *)

(** C5 (as the code has it).  The constructor does not look at
    [pcm_vol_fraction]: whatever the value, inside [0, 1) or not, it
    succeeds as soon as the two registries hold [T_PCM] and [H_PCM], and
    it stores the value as given. *)
Theorem C5_init_stores_any_fraction (base : WaterModel) (node : Z)
    (fraction : Q) (t_idx h_idx : nat) :
  list_index "T_PCM" (state_names base) = Some t_idx ->
  list_index "H_PCM" (input_names base) = Some h_idx ->
  __init__ base node fraction
  = Ok {| model := base;
          pcm_water_node := node;
          pcm_vol_fraction := fraction;
          t_pcm_idx := t_idx;
          h_pcm_idx := h_idx;
          pcm_heat_to_water := None |}.
Proof.
  intros Ht Hh. unfold __init__. rewrite Ht, Hh. reflexivity.
Qed.

Lemma C5_init_stores_any_fraction_witness :
  __init__ demo_model 5 2
  = Ok {| model := demo_model;
          pcm_water_node := 5;
          pcm_vol_fraction := 2;
          t_pcm_idx := 10;
          h_pcm_idx := 11;
          pcm_heat_to_water := None |}.
Proof.
  apply (C5_init_stores_any_fraction demo_model 5 2 10 11); reflexivity.
Defined.

(** C5 as stated fails: 2 is not in [0, 1), the constructor accepts it,
    and the object it builds goes through [load_rc_data] and gets a
    negative host capacitance. *)
Lemma C5_counterexample :
  ~ (0 <= 2 /\ 2 < 1) /\
  exists t : TankWithPCM,
    __init__ demo_model 5 2 = Ok t /\
    pcm_vol_fraction t = 2 /\
    exists (rc' : gmap string Q) (t' : TankWithPCM) (c : Q),
      @load_rc_data demo_base t = (Ok rc', t') /\
      rc' !! "C_WH6"%string = Some c /\
      c < 0.
Proof.
  split; [intros [_ H]; discriminate H|].
  eexists. split; [reflexivity|]. split; [reflexivity|].
  eexists _, _, _. split.
  - apply (@load_rc_data_run demo_base _ (demo_tank 2)
             (demo_capacitances 100 1 demo_fractions) 5 0.1
             (water_c * (100 * 0.1))); try reflexivity.
    vm_compute. congruence.
  - unfold augmented_rc.
    rewrite lookup_insert_ne by discriminate.
    split; [apply lookup_insert_eq | reflexivity].
Qed.

(** * The scenario with the rounding of the source *)

(** In binary64 the scenario gives the same PCM volume and capacitance
    as in exact arithmetic, and the resistance rounds to
    17.857142857142854. *)
Lemma binary64_scenario :
  Binary64.pcm_volume 100 0.1 0.5 = 5%float /\
  Binary64.c_pcm (Binary64.pcm_volume 100 0.1 0.5) = 8588%float /\
  Binary64.r_pcm_wh (Binary64.pcm_volume 100 0.1 0.5)
  = 17.857142857142854%float /\
  PrimFloat.ltb 17.857 (Binary64.r_pcm_wh (Binary64.pcm_volume 100 0.1 0.5))
  = true /\
  PrimFloat.ltb (Binary64.r_pcm_wh (Binary64.pcm_volume 100 0.1 0.5)) 17.858
  = true.
Proof. repeat split; reflexivity. Qed.

(** * Further properties of the constructor *)

Lemma list_index_None (x : string) (l : list string) :
  list_index x l = None <-> x ∉ l.
Proof.
  induction l as [|y l IH]; simpl.
  - split; [intros _; apply not_elem_of_nil | reflexivity].
  - destruct (decide (y = x)) as [->|Hne].
    + split; [discriminate | intros H; exfalso; apply H; left].
    + destruct (list_index x l) as [i|]; simpl.
      * split; [discriminate|].
        intros H. exfalso. apply H. right. apply dec_stable.
        intros Hx. destruct IH as [_ IH]. specialize (IH Hx). discriminate.
      * split; [|reflexivity].
        intros _ [H|H]%elem_of_cons; [congruence|].
        destruct IH as [IH _]. exact (IH eq_refl H).
Qed.

Lemma list_index_Some (x : string) (l : list string) (i : nat) :
  list_index x l = Some i ->
  l !! i = Some x /\ forall j : nat, (j < i)%nat -> l !! j <> Some x.
Proof.
  revert i. induction l as [|y l IH]; intros i; simpl; [discriminate|].
  destruct (decide (y = x)) as [->|Hne].
  - intros [= <-]. split; [reflexivity | intros j Hj; lia].
  - destruct (list_index x l) as [i'|]; simpl; [|discriminate].
    intros [= <-]. destruct (IH i' eq_refl) as [Hi Hfirst].
    split; [exact Hi|].
    intros [|j] Hj; simpl; [congruence | apply Hfirst; lia].
Qed.

(** X1.  The constructor succeeds exactly when the state names hold
    [T_PCM] and the input names hold [H_PCM]; when either is missing it
    raises [ValueError]. *)
Theorem init_succeeds_iff_registered (base : WaterModel) (node : Z)
    (fraction : Q) :
  ((exists t : TankWithPCM, __init__ base node fraction = Ok t) <->
   "T_PCM"%string ∈ state_names base /\ "H_PCM"%string ∈ input_names base) /\
  (~ ("T_PCM"%string ∈ state_names base /\ "H_PCM"%string ∈ input_names base)
   -> __init__ base node fraction = Raise ValueError).
Proof.
  unfold __init__.
  destruct (list_index "T_PCM" (state_names base)) as [ti|] eqn:Et.
  - destruct (list_index "H_PCM" (input_names base)) as [hi|] eqn:Eh.
    + assert (Ht : "T_PCM"%string ∈ state_names base).
      { apply dec_stable. intros H%list_index_None. congruence. }
      assert (Hh : "H_PCM"%string ∈ input_names base).
      { apply dec_stable. intros H%list_index_None. congruence. }
      split; [split; [tauto | intros _; eexists; reflexivity] | tauto].
    + apply list_index_None in Eh.
      split; [split; [intros [t Ht]; discriminate | tauto] | reflexivity].
  - apply list_index_None in Et.
    split; [split; [intros [t Ht]; discriminate | tauto] | reflexivity].
Qed.

Lemma init_succeeds_iff_registered_witness :
  (exists t : TankWithPCM, __init__ demo_model 5 0.5 = Ok t) /\
  __init__ (demo_model_of ["T_WH1"; "T_WH2"]%string 2 ∅ 3) 1 0.5
  = Raise ValueError.
Proof.
  split.
  - apply (proj1 (init_succeeds_iff_registered demo_model 5 0.5)).
    split; apply list_elem_of_In; cbn; tauto.
  - apply (proj2 (init_succeeds_iff_registered
                    (demo_model_of ["T_WH1"; "T_WH2"]%string 2 ∅ 3) 1 0.5)).
    intros [H _]. apply list_elem_of_In in H. cbn in H.
    intuition discriminate.
Defined.

(** X2.  What a successful constructor leaves: [t_pcm_idx] is the first
    position of [T_PCM] among the state names and [h_pcm_idx] the first
    position of [H_PCM] among the input names; the base object and the
    two arguments are stored as given and no heat transfer is recorded
    yet. *)
Theorem init_indices_first_occurrence (base : WaterModel) (node : Z)
    (fraction : Q) (t : TankWithPCM) :
  __init__ base node fraction = Ok t ->
  state_names base !! t_pcm_idx t = Some "T_PCM"%string /\
  (forall j : nat, (j < t_pcm_idx t)%nat ->
     state_names base !! j <> Some "T_PCM"%string) /\
  input_names base !! h_pcm_idx t = Some "H_PCM"%string /\
  (forall j : nat, (j < h_pcm_idx t)%nat ->
     input_names base !! j <> Some "H_PCM"%string) /\
  model t = base /\
  pcm_water_node t = node /\
  pcm_vol_fraction t = fraction /\
  pcm_heat_to_water t = None.
Proof.
  unfold __init__.
  destruct (list_index "T_PCM" (state_names base)) as [ti|] eqn:Et;
    [|discriminate].
  destruct (list_index "H_PCM" (input_names base)) as [hi|] eqn:Eh;
    [|discriminate].
  intros [= <-]. cbn.
  destruct (list_index_Some _ _ _ Et) as [Ht1 Ht2].
  destruct (list_index_Some _ _ _ Eh) as [Hh1 Hh2].
  repeat split; assumption.
Qed.

Lemma init_indices_first_occurrence_witness :
  state_names demo_model !! 10%nat = Some "T_PCM"%string /\
  (forall j : nat, (j < 10)%nat ->
     state_names demo_model !! j <> Some "T_PCM"%string) /\
  input_names demo_model !! 11%nat = Some "H_PCM"%string /\
  (forall j : nat, (j < 11)%nat ->
     input_names demo_model !! j <> Some "H_PCM"%string) /\
  model (demo_tank 0.5) = demo_model /\
  pcm_water_node (demo_tank 0.5) = 5%Z /\
  pcm_vol_fraction (demo_tank 0.5) = 0.5 /\
  pcm_heat_to_water (demo_tank 0.5) = None.
Proof.
  apply (init_indices_first_occurrence demo_model 5 0.5 (demo_tank 0.5)).
  reflexivity.
Defined.

(** * Further properties of [load_rc_data] *)

Lemma py_index_None (n : nat) (i : Z) :
  py_index n i = None <-> (Z.of_nat n <= i \/ i < - Z.of_nat n)%Z.
Proof.
  unfold py_index.
  destruct (0 <=? i)%Z eqn:E0.
  - destruct (i <? Z.of_nat n)%Z eqn:E1; split; intros H;
      try discriminate; try reflexivity; lia.
  - destruct (- Z.of_nat n <=? i)%Z eqn:E1; split; intros H;
      try discriminate; try reflexivity; lia.
Qed.

Lemma c_wh_key_inj (k k' : Z) : c_wh_key k = c_wh_key k' -> k = k'.
Proof.
  unfold c_wh_key. cbn. intros H. injection H as H.
  apply pretty_Z_inj in H. lia.
Qed.

Lemma with_model_same (t : TankWithPCM) :
  with_model
    (fun w => set_vol_fractions (vol_fractions (model t))
                (set_volume (volume (model t)) w)) t
  = t.
Proof. destruct t as [[] ? ? ? ? ?]. reflexivity. Qed.

Section AugmenterMore.
Context {Base : BaseModel}.


(** X4.  When the base mapping has no capacitance under the host key
    [C_WH{pcm_water_node + 1}], [load_rc_data] raises [KeyError] with
    that key, but only after it has taken the PCM volume out of
    [volume] and rescaled the fractions: the failed call leaves the
    object changed. *)
Theorem load_rc_data_missing_host_key (t t1 : TankWithPCM)
    (rc : gmap string Q) (n : nat) (f : Q) :
  super_load_rc_data t = (Ok rc, t1) ->
  augmentable t1 n f ->
  rc !! c_wh_key (pcm_water_node t1) = None ->
  load_rc_data t
  = (Raise (KeyError (c_wh_key (pcm_water_node t1))), augmented t1 n f) /\
  volume (model (augmented t1 n f))
  == volume (model t1) - volume (model t1) * f * pcm_vol_fraction t1 /\
  vol_fractions (model (augmented t1 n f)) !! n
  = Some (f * (1 - pcm_vol_fraction t1)
          / py_sum (<[n := f * (1 - pcm_vol_fraction t1)]>
                      (vol_fractions (model t1)))).
Proof.
  intros Hsuper (Hidx & Hf & Hne) Hc.
  split; [|split].
  - unfold load_rc_data. run_method. rewrite Hsuper.
    unfold np_getitem, np_update. rewrite Hidx. simpl. rewrite Hf. simpl.
    rewrite (Qeq_bool_false _ _ Hne).
    rewrite lookup_insert_ne by (apply not_eq_sym, c_wh_key_not_pcm).
    rewrite Hc. reflexivity.
  - reflexivity.
  - unfold augmented.
    cbn [vol_fractions model with_model set_vol_fractions].
    rewrite lookup_map, list_lookup_insert_eq
      by exact (py_index_lt _ _ _ Hidx).
    reflexivity.
Qed.

(** X5.  A complete run writes three keys and no other: the returned
    mapping has the keys of the base mapping plus [C_PCM] and
    [R_PCM_WH{pcm_water_node + 1}], the host capacitance is the base
    value times [1 - pcm_vol_fraction], and every key other than these
    three maps to what it mapped to in the base mapping. *)
Theorem load_rc_data_writes_three_keys (t t1 : TankWithPCM)
    (rc : gmap string Q) (n : nat) (f c : Q) :
  super_load_rc_data t = (Ok rc, t1) ->
  augmentable t1 n f ->
  rc !! c_wh_key (pcm_water_node t1) = Some c ->
  exists (rc' : gmap string Q) (t' : TankWithPCM),
    load_rc_data t = (Ok rc', t') /\
    dom rc'
    = dom rc ∪ {[ "C_PCM"%string; r_pcm_wh_key (pcm_water_node t1) ]} /\
    rc' !! c_wh_key (pcm_water_node t1)
    = Some (c * (1 - pcm_vol_fraction t1)) /\
    (forall key : string,
       key <> "C_PCM"%string ->
       key <> c_wh_key (pcm_water_node t1) ->
       key <> r_pcm_wh_key (pcm_water_node t1) ->
       rc' !! key = rc !! key).
Proof.
  intros Hsuper (Hidx & Hf & Hne) Hc.
  exists (augmented_rc t1 f c rc), (augmented t1 n f).
  split; [exact (load_rc_data_run t t1 rc n f c Hsuper Hidx Hf Hne Hc)|].
  unfold augmented_rc.
  split.
  { apply set_eq. intros key.
    rewrite !dom_insert_L, !elem_of_union, !elem_of_singleton.
    assert (Hin : c_wh_key (pcm_water_node t1) ∈ dom rc)
      by (apply elem_of_dom; eexists; exact Hc).
    split; [|tauto].
    intros [->|[->|[->|H]]]; tauto. }
  split.
  { rewrite lookup_insert_ne by apply r_key_not_c_wh.
    apply lookup_insert_eq. }
  intros key H1 H2 H3.
  rewrite !lookup_insert_ne by congruence. reflexivity.
Qed.

(** X6.  Whatever the outcome, [load_rc_data] assigns nothing but
    [volume] and [vol_fractions]: the object it leaves is the one the
    base method left, with at most these two attributes replaced. *)
Theorem load_rc_data_assigns_only_geometry (t : TankWithPCM) :
  exists (v : Q) (fs : list Q),
    snd (load_rc_data t)
    = with_model (fun w => set_vol_fractions fs (set_volume v w))
        (snd (super_load_rc_data t)).
Proof.
  unfold load_rc_data. run_method.
  destruct (super_load_rc_data t) as [[rc|e] t1]; cbn [snd].
  2:{ eexists _, _. symmetry. apply with_model_same. }
  unfold np_getitem, np_update.
  destruct (py_index _ _) as [n|]; cbn.
  2:{ eexists _, _. symmetry. apply with_model_same. }
  destruct (vol_fractions (model t1) !! n) as [f|]; cbn.
  2:{ eexists _, _. symmetry. apply with_model_same. }
  destruct (Qeq_bool _ _); cbn.
  { eexists _, _. reflexivity. }
  destruct (_ !! c_wh_key _); cbn; eexists _, _; reflexivity.
Qed.

End AugmenterMore.

Section AugmenterGeometry.
Context {Base : BaseModel}.


(** X8.  A complete run on a valid configuration keeps the geometry
    well formed: as many fractions as before, none of them negative,
    the host node still in range, and a volume that is neither negative
    nor larger than before. *)
Theorem load_rc_data_keeps_well_formed (t t1 : TankWithPCM)
    (rc : gmap string Q) (n : nat) (f c : Q) :
  super_load_rc_data t = (Ok rc, t1) ->
  valid_config t1 n ->
  vol_fractions (model t1) !! n = Some f ->
  0 <= volume (model t1) ->
  rc !! c_wh_key (pcm_water_node t1) = Some c ->
  exists (rc' : gmap string Q) (t' : TankWithPCM),
    load_rc_data t = (Ok rc', t') /\
    length (vol_fractions (model t')) = length (vol_fractions (model t1)) /\
    py_index (length (vol_fractions (model t'))) (pcm_water_node t') = Some n /\
    Forall (Qle 0) (vol_fractions (model t')) /\
    0 <= volume (model t') /\
    volume (model t') <= volume (model t1).
Proof.
  intros Hsuper Hv Hf HV Hc.
  pose proof (valid_config_augmentable t1 n f Hv Hf) as (Hidx & _ & Hne).
  destruct (augmented_valid t1 n f Hv Hf) as (Hidx' & _ & Hnn' & _).
  destruct (augmented_fractions t1 n f Hv Hf) as (f' & _ & _ & Hlen & _).
  destruct Hv as (_ & Hp & Hnn & Hsum).
  pose proof (py_sum_bounds_entry _ n f Hnn Hf) as Hb. rewrite Hsum in Hb.
  exists (augmented_rc t1 f c rc), (augmented t1 n f).
  split; [exact (load_rc_data_run t t1 rc n f c Hsuper Hidx Hf Hne Hc)|].
  split; [exact Hlen|]. split; [exact Hidx'|]. split; [exact Hnn'|].
  assert (HV' : volume (model (augmented t1 n f))
                == volume (model t1)
                   - volume (model t1) * f * pcm_vol_fraction t1)
    by reflexivity.
  set (p := pcm_vol_fraction t1) in *.
  set (V := volume (model t1)) in *.
  assert (Hfp : 0 <= f * p) by nra.
  assert (Hfp1 : f * p <= 1) by nra.
  assert (HVfp : 0 <= V * (f * p)) by nra.
  split; rewrite HV'; nra.
Qed.


End AugmenterGeometry.

(** X10.  The fraction that [load_rc_data] scales and the capacitance
    that it scales belong to the same node only for a non-negative
    [pcm_water_node]: a negative one counts the fractions from the end,
    while the key is still built from the negative number plus one. *)
Theorem host_key_matches_entry_iff_nonnegative (len : nat) (node : Z)
    (n : nat) :
  py_index len node = Some n ->
  (c_wh_key node = c_wh_key (Z.of_nat n) <-> (0 <= node)%Z).
Proof.
  unfold py_index. intros H. split.
  - intros Hk%c_wh_key_inj. lia.
  - intros Hnn. destruct (0 <=? node)%Z eqn:E0; [|lia].
    destruct (node <? Z.of_nat len)%Z; [|discriminate].
    injection H as <-. rewrite Z2Nat.id by exact Hnn. reflexivity.
Qed.


(** Node -1 of the demo tank is its last node, but the key is [C_WH0]. *)
Lemma load_rc_data_missing_host_key_witness :
  @load_rc_data demo_base (demo_tank_of demo_model (-1) 10)
  = (Raise (KeyError "C_WH0"),
     augmented (demo_tank_of demo_model (-1) 10) 9 0.1).
Proof.
  refine (proj1 (@load_rc_data_missing_host_key demo_base
                   (demo_tank_of demo_model (-1) 10)
                   (demo_tank_of demo_model (-1) 10)
                   (demo_capacitances 100 1 demo_fractions) 9 0.1
                   eq_refl _ _)).
  - repeat split. vm_compute. congruence.
  - vm_compute. reflexivity.
Defined.

Lemma load_rc_data_writes_three_keys_witness :
  exists (rc' : gmap string Q) (t' : TankWithPCM),
    @load_rc_data demo_base (demo_tank 0.5) = (Ok rc', t') /\
    dom rc'
    = dom (demo_capacitances 100 1 demo_fractions)
      ∪ {[ "C_PCM"%string; r_pcm_wh_key 5 ]} /\
    rc' !! c_wh_key 5 = Some (water_c * (100 * 0.1) * (1 - 0.5)) /\
    (forall key : string,
       key <> "C_PCM"%string ->
       key <> c_wh_key 5 ->
       key <> r_pcm_wh_key 5 ->
       rc' !! key = demo_capacitances 100 1 demo_fractions !! key).
Proof.
  apply (@load_rc_data_writes_three_keys demo_base
           (demo_tank 0.5) (demo_tank 0.5)
           (demo_capacitances 100 1 demo_fractions) 5 0.1
           (water_c * (100 * 0.1))).
  - reflexivity.
  - exact demo_tank_augmentable.
  - vm_compute. reflexivity.
Defined.


Lemma load_rc_data_keeps_well_formed_witness :
  exists (rc' : gmap string Q) (t' : TankWithPCM),
    @load_rc_data demo_base (demo_tank 0.5) = (Ok rc', t') /\
    length (vol_fractions (model t')) = 10%nat /\
    py_index (length (vol_fractions (model t'))) (pcm_water_node t')
    = Some 5%nat /\
    Forall (Qle 0) (vol_fractions (model t')) /\
    0 <= volume (model t') /\
    volume (model t') <= 100.
Proof.
  apply (@load_rc_data_keeps_well_formed demo_base
           (demo_tank 0.5) (demo_tank 0.5)
           (demo_capacitances 100 1 demo_fractions) 5 0.1
           (water_c * (100 * 0.1))).
  - reflexivity.
  - exact demo_tank_valid.
  - reflexivity.
  - vm_compute. congruence.
  - vm_compute. reflexivity.
Defined.


(** Index -1 of ten entries is entry 9, whose key would be [C_WH10]. *)
Lemma host_key_matches_entry_iff_nonnegative_witness :
  (c_wh_key (-1) = c_wh_key (Z.of_nat 9) <-> (0 <= -1)%Z) /\
  (c_wh_key 5 = c_wh_key (Z.of_nat 5) <-> (0 <= 5)%Z).
Proof.
  split.
  - apply (host_key_matches_entry_iff_nonnegative 10 (-1) 9). reflexivity.
  - apply (host_key_matches_entry_iff_nonnegative 10 5 5). reflexivity.
Defined.

(** * Further properties of [update_inputs] *)

Lemma array_eq_insert_same (l : list Q) (i : nat) (x g : Q) :
  l !! i = Some x -> g == x -> array_eq (<[i := g]> l) l.
Proof.
  intros Hx Hg. apply array_eq_lookup; [apply length_insert|].
  intros m a b Ha Hb.
  destruct (decide (m = i)) as [->|Hm].
  - rewrite list_lookup_insert_eq in Ha by exact (lookup_lt_Some _ _ _ Hx).
    injection Ha as <-. rewrite Hx in Hb. injection Hb as <-. exact Hg.
  - rewrite list_lookup_insert_ne in Ha by congruence.
    rewrite Ha in Hb. injection Hb as <-. reflexivity.
Qed.

Lemma array_eq_trans (a b c : list Q) :
  array_eq a b -> array_eq b c -> array_eq a c.
Proof.
  apply Forall2_trans. intros x y z Hxy Hyz. rewrite Hxy. exact Hyz.
Qed.

Section ComposerMore.
Context {Base : BaseModel} {Sub : Subclass}.

(** X11.  Without the key [Zone Temperature (C)] in the schedule that
    the base method has set up, [update_inputs] raises [KeyError] with
    that key and stops there: the object is as the base method left it,
    the water draw and the heat transfer are not asked. *)
Theorem update_inputs_missing_zone_temperature
    (schedule_inputs : option (gmap string Q)) (t t1 : TankWithPCM) :
  super_update_inputs schedule_inputs t = (Ok tt, t1) ->
  current_schedule (model t1) !! "Zone Temperature (C)"%string = None ->
  update_inputs schedule_inputs t
  = (Raise (KeyError "Zone Temperature (C)"), t1).
Proof.
  intros Hsuper Hzone. unfold update_inputs. run_method.
  rewrite Hsuper, Hzone. reflexivity.
Qed.

(** X12.  When the host node or the PCM state index is no index of the
    injection vector, [update_inputs] raises [IndexError] after it has
    recorded the flux: [pcm_heat_to_water] holds the new value while
    [inputs_init] still holds the old vector. *)
Theorem update_inputs_index_out_of_range
    (schedule_inputs : option (gmap string Q))
    (t t1 t2 t3 : TankWithPCM) (t_zone q : Q) (h : list Q) :
  super_update_inputs schedule_inputs t = (Ok tt, t1) ->
  current_schedule (model t1) !! "Zone Temperature (C)"%string = Some t_zone ->
  update_water_draw t1 = (Ok h, t2) ->
  self_get_pcm_heat_xfer t2 = (Ok q, t3) ->
  py_index (length h) (pcm_water_node t3) = None \/
  (length h <= t_pcm_idx t3)%nat ->
  exists t' : TankWithPCM,
    update_inputs schedule_inputs t = (Raise IndexError, t') /\
    t' = set_pcm_heat_to_water (Some q) t3 /\
    pcm_heat_to_water t' = Some q /\
    inputs_init (model t') = inputs_init (model t3).
Proof.
  intros Hsuper Hzone Hdraw Hxfer Hout.
  exists (set_pcm_heat_to_water (Some q) t3).
  split; [|repeat split].
  unfold update_inputs. run_method.
  rewrite Hsuper, Hzone, Hdraw, Hxfer.
  cbn [pcm_water_node t_pcm_idx set_pcm_heat_to_water].
  unfold np_update.
  destruct (py_index (length h) (pcm_water_node t3)) as [i|] eqn:Ei;
    [|reflexivity].
  destruct Hout as [Hout|Hout]; [discriminate|].
  destruct (lookup_lt_is_Some_2 _ _ (py_index_lt _ _ _ Ei)) as [x Hx].
  cbn. rewrite Hx. cbn. rewrite length_insert.
  assert (Hj : py_index (length h) (Z.of_nat (t_pcm_idx t3)) = None)
    by (apply py_index_None; lia).
  rewrite Hj. reflexivity.
Qed.

(** X13.  Wherever the two indices point, in a step that completes the
    stored vector is the zone temperature followed by a vector as long
    as the water draw's, in which every entry other than the two named
    ones is the water draw's.  When both indices name the same entry,
    that entry gets the flux added and then taken away: it holds
    [(x + q) - q]. *)
Theorem update_inputs_shape_of_vector
    (schedule_inputs : option (gmap string Q))
    (t t1 t2 t3 : TankWithPCM) (t_zone q x y : Q) (h : list Q) (i : nat) :
  super_update_inputs schedule_inputs t = (Ok tt, t1) ->
  current_schedule (model t1) !! "Zone Temperature (C)"%string = Some t_zone ->
  update_water_draw t1 = (Ok h, t2) ->
  self_get_pcm_heat_xfer t2 = (Ok q, t3) ->
  py_index (length h) (pcm_water_node t3) = Some i ->
  h !! i = Some x ->
  <[i := x + q]> h !! t_pcm_idx t3 = Some y ->
  exists (t' : TankWithPCM) (h' : list Q),
    update_inputs schedule_inputs t = (Ok tt, t') /\
    inputs_init (model t') = t_zone :: h' /\
    length (inputs_init (model t')) = S (length h) /\
    (forall m : nat, m <> i -> m <> t_pcm_idx t3 -> h' !! m = h !! m) /\
    (i = t_pcm_idx t3 -> h' !! i = Some (x + q - q)).
Proof.
  intros Hsuper Hzone Hdraw Hxfer Hi Hx Hy.
  eexists _, (<[t_pcm_idx t3 := y - q]> (<[i := x + q]> h)).
  split.
  { exact (update_inputs_run schedule_inputs t t1 t2 t3 t_zone q x y h i
             Hsuper Hzone Hdraw Hxfer Hi Hx Hy). }
  split; [reflexivity|].
  split.
  { cbn [inputs_init model with_model set_inputs_init length].
    rewrite !length_insert. reflexivity. }
  split.
  { intros m Hmi Hmj. rewrite !list_lookup_insert_ne by congruence.
    reflexivity. }
  intros Heq. rewrite <- Heq in Hy |- *.
  rewrite list_lookup_insert_eq in Hy by exact (lookup_lt_Some _ _ _ Hx).
  injection Hy as <-.
  apply list_lookup_insert_eq. rewrite length_insert.
  exact (lookup_lt_Some _ _ _ Hx).
Qed.

(** X14.  A heat transfer of zero leaves the water draw's vector
    numerically as it is: the stored vector is the zone temperature
    followed by it. *)
Theorem update_inputs_zero_flux
    (schedule_inputs : option (gmap string Q))
    (t t1 t2 t3 : TankWithPCM) (t_zone q x y : Q) (h : list Q) (i : nat) :
  super_update_inputs schedule_inputs t = (Ok tt, t1) ->
  current_schedule (model t1) !! "Zone Temperature (C)"%string = Some t_zone ->
  update_water_draw t1 = (Ok h, t2) ->
  self_get_pcm_heat_xfer t2 = (Ok q, t3) ->
  py_index (length h) (pcm_water_node t3) = Some i ->
  h !! i = Some x ->
  <[i := x + q]> h !! t_pcm_idx t3 = Some y ->
  q == 0 ->
  exists t' : TankWithPCM,
    update_inputs schedule_inputs t = (Ok tt, t') /\
    array_eq (inputs_init (model t')) (t_zone :: h).
Proof.
  intros Hsuper Hzone Hdraw Hxfer Hi Hx Hy Hq.
  eexists. split.
  { exact (update_inputs_run schedule_inputs t t1 t2 t3 t_zone q x y h i
             Hsuper Hzone Hdraw Hxfer Hi Hx Hy). }
  cbn [inputs_init model with_model set_inputs_init].
  constructor; [reflexivity|].
  apply (array_eq_trans _ (<[i := x + q]> h)).
  - apply (array_eq_insert_same _ _ y); [exact Hy | rewrite Hq; ring].
  - apply (array_eq_insert_same _ _ x); [exact Hx | rewrite Hq; ring].
Qed.

End ComposerMore.

(** The demo tank with an empty schedule. *)
Lemma update_inputs_missing_zone_temperature_witness :
  @update_inputs demo_base demo_subclass None
    (demo_tank_of (demo_model_of demo_state_names 10 ∅ 3) 5 10)
  = (Raise (KeyError "Zone Temperature (C)"),
     demo_tank_of (demo_model_of demo_state_names 10 ∅ 3) 5 10).
Proof.
  apply (@update_inputs_missing_zone_temperature demo_base demo_subclass None
           (demo_tank_of (demo_model_of demo_state_names 10 ∅ 3) 5 10)
           (demo_tank_of (demo_model_of demo_state_names 10 ∅ 3) 5 10));
    reflexivity.
Defined.

Lemma update_inputs_index_out_of_range_witness :
  exists t' : TankWithPCM,
    @update_inputs demo_base demo_subclass None (demo_tank_of demo_model 11 10)
    = (Raise IndexError, t') /\
    t' = set_pcm_heat_to_water (Some 10) (demo_tank_of demo_model 11 10) /\
    pcm_heat_to_water t' = Some 10 /\
    inputs_init (model t') = [].
Proof.
  apply (@update_inputs_index_out_of_range demo_base demo_subclass None
           (demo_tank_of demo_model 11 10) (demo_tank_of demo_model 11 10)
           (demo_tank_of demo_model 11 10) (demo_tank_of demo_model 11 10)
           20 10 (replicate 11 0)).
  - reflexivity.
  - reflexivity.
  - reflexivity.
  - reflexivity.
  - left. reflexivity.
Defined.

(** Host node and PCM state at the same entry 10. *)
Lemma update_inputs_shape_of_vector_witness :
  exists (t' : TankWithPCM) (h' : list Q),
    @update_inputs demo_base demo_subclass None (demo_tank_of demo_model 10 10)
    = (Ok tt, t') /\
    inputs_init (model t') = 20 :: h' /\
    length (inputs_init (model t')) = 12%nat /\
    (forall m : nat, m <> 10%nat -> m <> 10%nat ->
       h' !! m = replicate 11 0 !! m) /\
    (10%nat = 10%nat -> h' !! 10%nat = Some (0 + 10 - 10)).
Proof.
  apply (@update_inputs_shape_of_vector demo_base demo_subclass None
           (demo_tank_of demo_model 10 10) (demo_tank_of demo_model 10 10)
           (demo_tank_of demo_model 10 10) (demo_tank_of demo_model 10 10)
           20 10 0 (0 + 10) (replicate 11 0) 10); reflexivity.
Defined.

(** A subclass whose heat transfer is zero. *)
Lemma update_inputs_zero_flux_witness :
  exists t' : TankWithPCM,
    @update_inputs demo_base {| self_get_pcm_heat_xfer := ret 0 |} None
      (demo_tank 0.5)
    = (Ok tt, t') /\
    array_eq (inputs_init (model t')) (20 :: replicate 11 0).
Proof.
  apply (@update_inputs_zero_flux demo_base
           {| self_get_pcm_heat_xfer := ret 0 |} None
           (demo_tank 0.5) (demo_tank 0.5) (demo_tank 0.5) (demo_tank 0.5)
           20 0 0 0 (replicate 11 0) 5); reflexivity.
Defined.

(** * Further properties of [generate_results] *)






Section ReporterMore.
Context {Base : BaseModel}.


(** X15.  The reporter only reads: whatever its outcome, the object it
    leaves is the one the base reporter left. *)
Theorem generate_results_leaves_object (t : TankWithPCM) :
  snd (generate_results t) = snd (super_generate_results t).
Proof.
  unfold generate_results. run_method.
  destruct (super_generate_results t) as [[res|e] t1]; [|reflexivity].
  destruct (6 <=? verbosity (model t1))%Z; [|reflexivity].
  destruct (np_dot _ _); [|reflexivity]. cbn.
  destruct (np_max _); [|reflexivity]. cbn.
  destruct (np_min _); [|reflexivity]. cbn.
  destruct (np_getitem _ _); reflexivity.
Qed.

(** X16.  From verbosity 6 on the reporter raises [ValueError] when
    there is no water state to take the maximum of or when the water
    states and the volume fractions differ in number, and [IndexError]
    when these are in order but the PCM state index is beyond the
    states; in each case no mapping is returned. *)
Theorem generate_results_errors (t t1 : TankWithPCM)
    (res : gmap string value) :
  super_generate_results t = (Ok res, t1) ->
  (6 <= verbosity (model t1))%Z ->
  (take (n_nodes (model t1)) (states (model t1)) = [] \/
   length (take (n_nodes (model t1)) (states (model t1)))
   <> length (vol_fractions (model t1)) ->
   generate_results t = (Raise ValueError, t1)) /\
  (take (n_nodes (model t1)) (states (model t1)) <> [] ->
   length (take (n_nodes (model t1)) (states (model t1)))
   = length (vol_fractions (model t1)) ->
   (length (states (model t1)) <= t_pcm_idx t1)%nat ->
   generate_results t = (Raise IndexError, t1)).
Proof.
  intros Hsuper Hv.
  unfold generate_results. run_method. rewrite Hsuper.
  destruct (6 <=? verbosity (model t1))%Z eqn:E; [|lia].
  unfold np_dot. split.
  - intros Hbad.
    destruct (decide (length (take (n_nodes (model t1)) (states (model t1)))
                      = length (vol_fractions (model t1)))) as [Hlen|Hlen];
      [|reflexivity].
    destruct Hbad as [Hnil|Hne]; [|contradiction].
    rewrite Hnil. reflexivity.
  - intros Hne Hlen Hidx.
    rewrite decide_True by exact Hlen.
    destruct (take (n_nodes (model t1)) (states (model t1))) as [|w ws];
      [contradiction|].
    cbn [np_max np_min]. unfold np_getitem.
    assert (Hnone : py_index (length (states (model t1)))
                      (Z.of_nat (t_pcm_idx t1)) = None)
      by (apply py_index_None; lia).
    rewrite Hnone. reflexivity.
Qed.


End ReporterMore.

(** No water node at all, and a PCM state index beyond the states. *)
Lemma generate_results_errors_witness :
  @generate_results demo_base
    (demo_tank_of (demo_model_of demo_state_names 0 ∅ 6) 5 10)
  = (Raise ValueError,
     demo_tank_of (demo_model_of demo_state_names 0 ∅ 6) 5 10) /\
  @generate_results demo_base
    (demo_tank_of (demo_model_of demo_state_names 10 ∅ 6) 5 11)
  = (Raise IndexError,
     demo_tank_of (demo_model_of demo_state_names 10 ∅ 6) 5 11).
Proof.
  split.
  - apply (proj1 (@generate_results_errors demo_base
                    (demo_tank_of (demo_model_of demo_state_names 0 ∅ 6) 5 10)
                    (demo_tank_of (demo_model_of demo_state_names 0 ∅ 6) 5 10)
                    ∅ eq_refl ltac:(cbn; lia))).
    left. reflexivity.
  - apply (proj2 (@generate_results_errors demo_base
                    (demo_tank_of (demo_model_of demo_state_names 10 ∅ 6) 5 11)
                    (demo_tank_of (demo_model_of demo_state_names 10 ∅ 6) 5 11)
                    ∅ eq_refl ltac:(cbn; lia))).
    + discriminate.
    + reflexivity.
    + cbn. lia.
Defined.


(** * The property tables *)

(** The derived entries of the constant tables agree with the
    primary ones: for water and for both PCM phases the heat capacity
    per litre is specific heat times density per litre times 1000, and
    the density per litre is the density over 1000. *)
Theorem property_tables_consistent :
  water_c == 4183 /\
  water_density_liters == water_density / 1000 /\
  pcm_c solid == pcm_cp solid * pcm_density_liters solid * 1000 /\
  pcm_density_liters solid == pcm_density solid / 1000 /\
  pcm_c liquid == pcm_cp liquid * pcm_density_liters liquid * 1000 /\
  pcm_density_liters liquid == pcm_density liquid / 1000.
Proof. repeat split; reflexivity. Qed.
